(** * react-native-network-quality: scorer, one-shot accessor and hook

    A shallow embedding of the TypeScript sources

      - [src/types.ts]                  (data model)
      - [src/measureNetworkQuality.ts]  (scorer and one-shot accessor)
      - [src/useNetworkQuality.ts]      (the React hook, "watch session")

    JavaScript numbers are IEEE-754 binary64 values; they are embedded as
    Rocq's primitive floats, whose comparisons are the ones JavaScript
    performs ([NaN] compares false with everything).  A value of type
    [T | null] (or an optional property) is an [option T]. *)

From Stdlib Require Import Bool String List PrimFloat.
Import ListNotations.

Local Open Scope bool_scope.
Local Open Scope float_scope.

(** ** JavaScript primitives used by the sources *)

Definition number := float.

(** [a ?? b]: the right operand replaces [null]/[undefined] only. *)
Definition nullish {A : Type} (a : option A) (b : A) : A :=
  match a with
  | Some v => v
  | None => b
  end.

Notation "a ?? b" := (nullish a b) (at level 45, left associativity).

(** [a > b] and [a >= b] on numbers. *)
Definition gtb (a b : number) : bool := b <? a.
Definition geb (a b : number) : bool := b <=? a.

(** A thrown value (the rejection reason of a promise): either an [Error]
    object carrying a [message], or any other value, of which only the
    result of [String(err)] is ever observed. *)
Inductive thrown : Type :=
  | ErrorObject (message : string)
  | OtherValue (asString : string).

(** The outcome of awaiting a [Promise<A>]. *)
Inductive settled (A : Type) : Type :=
  | Resolved (value : A)
  | Rejected (reason : thrown).

Arguments Resolved {A} value.
Arguments Rejected {A} reason.

(** ** types.ts *)

Inductive NetworkQuality : Type :=
  | offline
  | poor
  | fair
  | good
  | excellent.

(** [NetworkMeasurement].  [networkType] and [cellularGeneration] arrive
    from the native module as strings and are cast with [as any], which
    performs no conversion, so they stay strings here. *)
Module NetworkMeasurement.
Record t : Type := mk {
  timestamp : number;
  networkType : string;
  cellularGeneration : string;
  wifiRssi : option number;
  cellularRssi : option number;
  latencyMs : option number;
  jitterMs : option number;
  downlinkMbps : option number;
  packetLossPercent : option number;
  isConnected : bool;
  failureReason : option string
}.
End NetworkMeasurement.

(** The object the native [measureNetwork] promise resolves with
    (NativeNetworkQualityModule.ts, [Spec.measureNetwork]). *)
Module NativeMeasurement.
Record t : Type := mk {
  timestamp : number;
  networkType : string;
  cellularGeneration : string;
  wifiRssi : option number;
  cellularRssi : option number;
  latencyMs : option number;
  jitterMs : option number;
  downlinkMbps : option number;
  packetLossPercent : option number;
  isConnected : bool;
  failureReason : option string
}.
End NativeMeasurement.

Module NetworkQualityResult.
Record t : Type := mk {
  quality : NetworkQuality;
  measurement : NetworkMeasurement.t
}.
End NetworkQualityResult.

Module MeasureOptions.
Record t : Type := mk {
  extended : option bool;
  timeoutMs : option number
}.
End MeasureOptions.

(** ** measureNetworkQuality.ts *)

Definition scoreNetworkQuality (measurement : NetworkMeasurement.t)
  : NetworkQuality :=
  if negb (NetworkMeasurement.isConnected measurement) then offline
  else
    let latencyMs := NetworkMeasurement.latencyMs measurement ?? 999 in
    let downlinkMbps := NetworkMeasurement.downlinkMbps measurement ?? 0 in
    let packetLossPercent :=
      NetworkMeasurement.packetLossPercent measurement ?? 100 in
    if (latencyMs <? 50) && gtb downlinkMbps 20 && (packetLossPercent <? 1)
    then excellent
    else if (latencyMs <? 100) && geb downlinkMbps 5 && (packetLossPercent <? 5)
    then good
    else if (latencyMs <? 200) && geb downlinkMbps 1 && (packetLossPercent <? 10)
    then fair
    else poor.

(** The field-by-field copy building [typedMeasurement]. *)
Definition typedMeasurement (measurement : NativeMeasurement.t)
  : NetworkMeasurement.t :=
  {| NetworkMeasurement.timestamp := NativeMeasurement.timestamp measurement;
     NetworkMeasurement.networkType := NativeMeasurement.networkType measurement;
     NetworkMeasurement.cellularGeneration :=
       NativeMeasurement.cellularGeneration measurement;
     NetworkMeasurement.wifiRssi := NativeMeasurement.wifiRssi measurement;
     NetworkMeasurement.cellularRssi := NativeMeasurement.cellularRssi measurement;
     NetworkMeasurement.latencyMs := NativeMeasurement.latencyMs measurement;
     NetworkMeasurement.jitterMs := NativeMeasurement.jitterMs measurement;
     NetworkMeasurement.downlinkMbps := NativeMeasurement.downlinkMbps measurement;
     NetworkMeasurement.packetLossPercent :=
       NativeMeasurement.packetLossPercent measurement;
     NetworkMeasurement.isConnected := NativeMeasurement.isConnected measurement;
     NetworkMeasurement.failureReason :=
       NativeMeasurement.failureReason measurement |}.

(** [measureNetworkQuality(options)].  The native module is the external
    collaborator: [measureNetwork] gives the outcome of the promise returned
    by [NativeNetworkQualityModule.measureNetwork(options)].  A rejection of
    the awaited promise propagates out of the [async] function. *)
Definition measureNetworkQuality
    (measureNetwork : option MeasureOptions.t -> settled NativeMeasurement.t)
    (options : option MeasureOptions.t)
  : settled NetworkQualityResult.t :=
  match measureNetwork options with
  | Resolved measurement =>
      let typed := typedMeasurement measurement in
      Resolved
        {| NetworkQualityResult.quality := scoreNetworkQuality typed;
           NetworkQualityResult.measurement := typed |}
  | Rejected reason => Rejected reason
  end.

(** ** useNetworkQuality.ts *)

(** [onMeasure]: a consumer-supplied function.  Whatever else it does is
    outside the hook; the hook observes only whether the call returns
    normally ([None]) or throws ([Some reason]).  It is called inside the
    [try] and [catch] blocks, where [isMeasuringRef] is still set. *)
Definition onMeasureCallback : Type :=
  option NetworkQualityResult.t -> option string -> option thrown.

Module UseNetworkQualityOptions.
Record t : Type := mk {
  measureOnResume : option bool;
  measureOnMount : option bool;
  extended : option bool;
  timeoutMs : option number;
  onMeasure : option onMeasureCallback
}.
End UseNetworkQualityOptions.

(** The state of one hook instance: the five [useState] cells, the
    [isMeasuringRef] cell, whether the [AppState] listener is registered,
    and what the instance has done to its environment: the calls issued to
    the native [measureNetwork] (one per measurement run), how many of
    their promises are still unsettled, and the calls made to [onMeasure]. *)
Module Session.
Record t : Type := mk {
  quality : option NetworkQuality;
  measurement : option NetworkMeasurement.t;
  isLoading : bool;
  error : option string;
  lastMeasuredAt : option number;
  isMeasuringRef : bool;
  subscription : bool;
  awaiting : nat;
  measureNetworkCalls : list (option MeasureOptions.t);
  onMeasureCalls : list (option NetworkQualityResult.t * option string)
}.

Definition setQuality (v : option NetworkQuality) (s : t) : t :=
  mk v (measurement s) (isLoading s) (error s) (lastMeasuredAt s)
     (isMeasuringRef s) (subscription s) (awaiting s)
     (measureNetworkCalls s) (onMeasureCalls s).

Definition setMeasurement (v : option NetworkMeasurement.t) (s : t) : t :=
  mk (quality s) v (isLoading s) (error s) (lastMeasuredAt s)
     (isMeasuringRef s) (subscription s) (awaiting s)
     (measureNetworkCalls s) (onMeasureCalls s).

Definition setIsLoading (v : bool) (s : t) : t :=
  mk (quality s) (measurement s) v (error s) (lastMeasuredAt s)
     (isMeasuringRef s) (subscription s) (awaiting s)
     (measureNetworkCalls s) (onMeasureCalls s).

Definition setError (v : option string) (s : t) : t :=
  mk (quality s) (measurement s) (isLoading s) v (lastMeasuredAt s)
     (isMeasuringRef s) (subscription s) (awaiting s)
     (measureNetworkCalls s) (onMeasureCalls s).

Definition setLastMeasuredAt (v : option number) (s : t) : t :=
  mk (quality s) (measurement s) (isLoading s) (error s) v
     (isMeasuringRef s) (subscription s) (awaiting s)
     (measureNetworkCalls s) (onMeasureCalls s).

Definition setIsMeasuringRef (v : bool) (s : t) : t :=
  mk (quality s) (measurement s) (isLoading s) (error s) (lastMeasuredAt s)
     v (subscription s) (awaiting s)
     (measureNetworkCalls s) (onMeasureCalls s).

Definition setSubscription (v : bool) (s : t) : t :=
  mk (quality s) (measurement s) (isLoading s) (error s) (lastMeasuredAt s)
     (isMeasuringRef s) v (awaiting s)
     (measureNetworkCalls s) (onMeasureCalls s).

Definition setAwaiting (v : nat) (s : t) : t :=
  mk (quality s) (measurement s) (isLoading s) (error s) (lastMeasuredAt s)
     (isMeasuringRef s) (subscription s) v
     (measureNetworkCalls s) (onMeasureCalls s).

(** Issuing [measureNetwork(request)]: one more call, one more pending
    promise. *)
Definition callMeasureNetwork (request : option MeasureOptions.t) (s : t) : t :=
  mk (quality s) (measurement s) (isLoading s) (error s) (lastMeasuredAt s)
     (isMeasuringRef s) (subscription s) (S (awaiting s))
     (measureNetworkCalls s ++ [request]) (onMeasureCalls s).

Definition recordOnMeasure
    (call : option NetworkQualityResult.t * option string) (s : t) : t :=
  mk (quality s) (measurement s) (isLoading s) (error s) (lastMeasuredAt s)
     (isMeasuringRef s) (subscription s) (awaiting s)
     (measureNetworkCalls s) (onMeasureCalls s ++ [call]).

(** The values given to [useState] and [useRef]; nothing has run yet. *)
Definition initial : t :=
  mk None None false None None false false 0 [] [].

(** The number of measurement runs started so far. *)
Definition runs (s : t) : nat := length (measureNetworkCalls s).
End Session.

(** What the promise returned by [performMeasurement] is, right after the
    call returns. *)
Inductive promise (A : Type) : Type :=
  | Pending
  | Fulfilled (value : A).

Arguments Pending {A}.
Arguments Fulfilled {A} value.

(** [!v] for [v : boolean | undefined]. *)
Definition falsy (v : option bool) : bool :=
  match v with
  | Some true => false
  | _ => true
  end.

(** [v !== false] for [v : boolean | undefined]. *)
Definition notStrictlyFalse (v : option bool) : bool :=
  match v with
  | Some false => false
  | _ => true
  end.

(** The events a hook instance reacts to: its effects running on mount, a
    change of [AppState], a call of [refresh] by the consumer, the settling
    of a pending native promise, and the cleanup on unmount. *)
Inductive event : Type :=
  | Mount
  | AppStateChange (state : string)
  | Refresh
  | Settle (outcome : settled NativeMeasurement.t) (now : number)
  | Unmount.

Section useNetworkQuality.

(** The [options] argument, the same at every render of the instance. *)
Variable options : option UseNetworkQualityOptions.t.

(** [options?.field]. *)
Definition optional {A : Type}
    (field : UseNetworkQualityOptions.t -> option A) : option A :=
  match options with
  | Some o => field o
  | None => None
  end.

(** [options?.onMeasure?.(result, error)] *)
Definition callOnMeasure (result : option NetworkQualityResult.t)
    (error : option string) (s : Session.t) : Session.t * option thrown :=
  match optional UseNetworkQualityOptions.onMeasure with
  | Some callback =>
      (Session.recordOnMeasure (result, error) s, callback result error)
  | None => (s, None)
  end.

(** The argument of [measureNetworkQuality] in [performMeasurement]. *)
Definition request : option MeasureOptions.t :=
  Some {| MeasureOptions.extended :=
            Some (optional UseNetworkQualityOptions.extended ?? true);
          MeasureOptions.timeoutMs :=
            Some (optional UseNetworkQualityOptions.timeoutMs ?? 3000) |}.

(** [performMeasurement], from its call to the [await]: the guard on
    [isMeasuringRef], the three updates, and the native call that
    [measureNetworkQuality] issues before it suspends. *)
Definition performMeasurement (s : Session.t)
  : Session.t * promise (option NetworkQualityResult.t) :=
  if Session.isMeasuringRef s then (s, Fulfilled None)
  else
    let s := Session.setIsMeasuringRef true s in
    let s := Session.setIsLoading true s in
    let s := Session.setError None s in
    (Session.callMeasureNetwork request s, Pending).

(** The rest of the [try] block, run when the native promise settles with
    [outcome]; [now] is what [Date.now()] returns.  The result is the
    value reached at [return result], or the value thrown. *)
Definition tryBlock (outcome : settled NativeMeasurement.t) (now : number)
    (s : Session.t) : Session.t * (NetworkQualityResult.t + thrown) :=
  match measureNetworkQuality (fun _ => outcome) request with
  | Resolved result =>
      let s := Session.setQuality
                 (Some (NetworkQualityResult.quality result)) s in
      let s := Session.setMeasurement
                 (Some (NetworkQualityResult.measurement result)) s in
      let s := Session.setLastMeasuredAt (Some now) s in
      let (s, threw) := callOnMeasure (Some result) None s in
      match threw with
      | None => (s, inl result)
      | Some err => (s, inr err)
      end
  | Rejected err => (s, inr err)
  end.

(** [err instanceof Error ? err.message : String(err)] *)
Definition errorMsg (err : thrown) : string :=
  match err with
  | ErrorObject message => message
  | OtherValue asString => asString
  end.

(** The [catch] block.  It completes normally unless [onMeasure] throws. *)
Definition catchBlock (err : thrown) (s : Session.t)
  : Session.t * settled (option NetworkQualityResult.t) :=
  let s := Session.setError (Some (errorMsg err)) s in
  let s := Session.setQuality None s in
  let (s, threw) := callOnMeasure None (Some (errorMsg err)) s in
  match threw with
  | None => (s, Resolved None)
  | Some err' => (s, Rejected err')
  end.

Definition finallyBlock (s : Session.t) : Session.t :=
  let s := Session.setIsLoading false s in
  Session.setIsMeasuringRef false s.

(** Everything [performMeasurement] does before its [finally] block. *)
Definition completionHandling (outcome : settled NativeMeasurement.t)
    (now : number) (s : Session.t)
  : Session.t * settled (option NetworkQualityResult.t) :=
  let (s, r) := tryBlock outcome now s in
  match r with
  | inl result => (s, Resolved (Some result))
  | inr err => catchBlock err s
  end.

(** [performMeasurement], from the [await] to its end; the second
    component is how the promise it returned settles. *)
Definition performMeasurementResume (outcome : settled NativeMeasurement.t)
    (now : number) (s : Session.t)
  : Session.t * settled (option NetworkQualityResult.t) :=
  let (s, p) := completionHandling outcome now s in
  (finallyBlock s, p).

Definition refresh (s : Session.t)
  : Session.t * promise (option NetworkQualityResult.t) :=
  performMeasurement s.

(** The first effect, run once on mount. *)
Definition mountEffect (s : Session.t) : Session.t :=
  if notStrictlyFalse (optional UseNetworkQualityOptions.measureOnMount)
  then fst (performMeasurement s)
  else s.

(** The second effect: the early return, or the registration of the
    [AppState] listener. *)
Definition resumeEffect (s : Session.t) : Session.t :=
  if falsy (optional UseNetworkQualityOptions.measureOnResume) then s
  else Session.setSubscription true s.

(** The listener given to [AppState.addEventListener]. *)
Definition onAppStateChange (state : string) (s : Session.t) : Session.t :=
  if String.eqb state "active" then fst (performMeasurement s) else s.

(** The cleanup of the second effect: [subscription.remove()]. *)
Definition resumeCleanup (s : Session.t) : Session.t :=
  Session.setSubscription false s.

(** One event.  An [AppState] change reaches the listener only while it
    is registered; a [Settle] resumes a suspended [performMeasurement],
    and there is nothing to resume when no promise is pending. *)
Definition step (s : Session.t) (e : event) : Session.t :=
  match e with
  | Mount => resumeEffect (mountEffect s)
  | AppStateChange state =>
      if Session.subscription s then onAppStateChange state s else s
  | Refresh => fst (refresh s)
  | Settle outcome now =>
      match Session.awaiting s with
      | O => s
      | S n => fst (performMeasurementResume outcome now
                      (Session.setAwaiting n s))
      end
  | Unmount => resumeCleanup s
  end.

Definition run (events : list event) (s : Session.t) : Session.t :=
  fold_left step events s.

(** The states an instance goes through. *)
Definition reachable (s : Session.t) : Prop :=
  exists events, s = run events Session.initial.

(** The events between mount and unmount. *)
Definition duringLifetime (e : event) : bool :=
  match e with
  | Mount | Unmount => false
  | _ => true
  end.

(** The states of a mounted instance. *)
Definition mounted (s : Session.t) : Prop :=
  exists events,
    forallb duringLifetime events = true /\
    s = run (Mount :: events) Session.initial.

(** Between the guard and the [finally] block of a run the flag is set,
    the loading indicator is on and the error cell has been cleared; and
    the pending native promises are exactly the runs under way. *)
Definition consistent (s : Session.t) : Prop :=
  Session.awaiting s = (if Session.isMeasuringRef s then 1%nat else 0%nat) /\
  (Session.isMeasuringRef s = true ->
   Session.error s = None /\ Session.isLoading s = true).

(** The consumer's [onMeasure], when there is one, returns normally. *)
Definition onMeasureReturns : Prop :=
  forall callback result error,
    optional UseNetworkQualityOptions.onMeasure = Some callback ->
    callback result error = None.

End useNetworkQuality.

(** What a consumer reading the hook's return value can rely on: the
    loading indicator mirrors the flag, a set [error] comes with a cleared
    [quality], a set [quality] is the score of the recorded [measurement],
    [measurement] and [lastMeasuredAt] are set together, and every native
    call carried the hook's [request]. *)
Definition coherent (options : option UseNetworkQualityOptions.t)
    (s : Session.t) : Prop :=
  Session.isLoading s = Session.isMeasuringRef s /\
  (Session.error s <> None -> Session.quality s = None) /\
  (forall q, Session.quality s = Some q ->
     exists m, Session.measurement s = Some m /\ q = scoreNetworkQuality m) /\
  (Session.measurement s = None <-> Session.lastMeasuredAt s = None) /\
  Forall (fun call => call = request options) (Session.measureNetworkCalls s).

(** ** apps/example: TestNetworkQuality.tsx *)

(** The string a [NetworkQuality] value is at run time. *)
Definition tierName (quality : NetworkQuality) : string :=
  match quality with
  | offline => "offline"
  | poor => "poor"
  | fair => "fair"
  | good => "good"
  | excellent => "excellent"
  end.

(** [getColor(quality: string | null)]: a [switch] with a [default]. *)
Definition getColor (quality : option string) : string :=
  match quality with
  | Some q =>
      if String.eqb q "excellent" then "#4caf50"
      else if String.eqb q "good" then "#8bc34a"
      else if String.eqb q "fair" then "#ff9800"
      else if String.eqb q "poor" then "#f44336"
      else "#999"
  | None => "#999"
  end.

(** * Properties of the scorer *)

Section Scorer.

(** The comparisons of the sentinels with the thresholds, as the
    machine evaluates them. *)
Lemma sentinel_latency_excellent : (999 <? 50) = false.
Proof. reflexivity. Qed.

Lemma sentinel_latency_good : (999 <? 100) = false.
Proof. reflexivity. Qed.

Lemma sentinel_latency_fair : (999 <? 200) = false.
Proof. reflexivity. Qed.

Lemma sentinel_loss_excellent : (100 <? 1) = false.
Proof. reflexivity. Qed.

Lemma sentinel_loss_good : (100 <? 5) = false.
Proof. reflexivity. Qed.

Lemma sentinel_loss_fair : (100 <? 10) = false.
Proof. reflexivity. Qed.

(** The scorer of a connected record, with the sentinels already in. *)
Lemma score_connected (m : NetworkMeasurement.t) :
  NetworkMeasurement.isConnected m = true ->
  scoreNetworkQuality m =
    let l := NetworkMeasurement.latencyMs m ?? 999 in
    let d := NetworkMeasurement.downlinkMbps m ?? 0 in
    let p := NetworkMeasurement.packetLossPercent m ?? 100 in
    if (l <? 50) && gtb d 20 && (p <? 1) then excellent
    else if (l <? 100) && geb d 5 && (p <? 5) then good
    else if (l <? 200) && geb d 1 && (p <? 10) then fair
    else poor.
Proof.
  intros connected. unfold scoreNetworkQuality.
  rewrite connected. reflexivity.
Qed.

(** A sentinel latency fails every tier's latency test. *)
Lemma score_latency_absent (m : NetworkMeasurement.t) :
  NetworkMeasurement.isConnected m = true ->
  NetworkMeasurement.latencyMs m = None ->
  scoreNetworkQuality m = poor.
Proof.
  intros connected absent. rewrite (score_connected m connected).
  rewrite absent. cbn [nullish].
  rewrite sentinel_latency_excellent, sentinel_latency_good,
    sentinel_latency_fair.
  reflexivity.
Qed.

(** A sentinel loss fails every tier's loss test. *)
Lemma score_loss_absent (m : NetworkMeasurement.t) :
  NetworkMeasurement.isConnected m = true ->
  NetworkMeasurement.packetLossPercent m = None ->
  scoreNetworkQuality m = poor.
Proof.
  intros connected absent. rewrite (score_connected m connected).
  rewrite absent. cbn [nullish].
  rewrite sentinel_loss_excellent, sentinel_loss_good, sentinel_loss_fair.
  rewrite !andb_false_r. reflexivity.
Qed.

(** [excellent] is returned only when all three excellent tests pass. *)
Lemma score_excellent_inv (m : NetworkMeasurement.t) :
  scoreNetworkQuality m = excellent ->
  gtb (NetworkMeasurement.downlinkMbps m ?? 0) 20 = true.
Proof.
  unfold scoreNetworkQuality.
  destruct (negb (NetworkMeasurement.isConnected m)); [discriminate|].
  cbv zeta.
  destruct (gtb (NetworkMeasurement.downlinkMbps m ?? 0) 20);
    [reflexivity|].
  rewrite andb_false_r. cbn [andb].
  repeat match goal with
         | |- (if ?c then _ else _) = _ -> _ => destruct c
         end; discriminate.
Qed.

(** [excellent] is returned only by the first test of a connected
    record. *)
Lemma score_excellent_tests (m : NetworkMeasurement.t) :
  scoreNetworkQuality m = excellent ->
  NetworkMeasurement.isConnected m = true /\
  (NetworkMeasurement.latencyMs m ?? 999 <? 50) = true /\
  gtb (NetworkMeasurement.downlinkMbps m ?? 0) 20 = true /\
  (NetworkMeasurement.packetLossPercent m ?? 100 <? 1) = true.
Proof.
  unfold scoreNetworkQuality.
  destruct (NetworkMeasurement.isConnected m); cbn [negb];
    [|discriminate].
  cbv zeta.
  destruct (NetworkMeasurement.latencyMs m ?? 999 <? 50),
    (gtb (NetworkMeasurement.downlinkMbps m ?? 0) 20),
    (NetworkMeasurement.packetLossPercent m ?? 100 <? 1);
    cbn [andb]; auto;
    repeat match goal with
           | |- (if ?c then _ else _) = _ -> _ => destruct c
           end; discriminate.
Qed.

End Scorer.

(** C3. Whenever [isConnected] is false the scorer returns [offline]:
    every other field of the record is arbitrary, present or absent. *)
Theorem C3_disconnected_scores_offline :
  forall (timestamp : number) (networkType cellularGeneration : string)
         (wifiRssi cellularRssi latencyMs jitterMs downlinkMbps
            packetLossPercent : option number)
         (failureReason : option string),
    scoreNetworkQuality
      (NetworkMeasurement.mk timestamp networkType cellularGeneration
         wifiRssi cellularRssi latencyMs jitterMs downlinkMbps
         packetLossPercent false failureReason)
    = offline.
Proof. reflexivity. Qed.

(** C4. A connected record whose latency, downlink and loss are all absent
    is scored as the record carrying the sentinels 999 ms, 0 Mbps and 100 %
    is, and that score is [poor]. *)
Theorem C4_all_absent_scores_poor :
  forall (timestamp : number) (networkType cellularGeneration : string)
         (wifiRssi cellularRssi jitterMs : option number)
         (failureReason : option string),
    let absent :=
      NetworkMeasurement.mk timestamp networkType cellularGeneration
        wifiRssi cellularRssi None jitterMs None None true failureReason in
    let sentinels :=
      NetworkMeasurement.mk timestamp networkType cellularGeneration
        wifiRssi cellularRssi (Some 999) jitterMs (Some 0) (Some 100) true
        failureReason in
    scoreNetworkQuality absent = scoreNetworkQuality sentinels /\
    scoreNetworkQuality absent = poor.
Proof. intros. split; reflexivity. Qed.

(** C5. A connected record whose latency, downlink and loss are present
    scores [excellent] exactly when latency < 50, downlink > 20 and
    loss < 1.  The three edges are strict, each on its own: a latency of
    exactly 50, a downlink of exactly 20 or a loss of exactly 1 never gives
    [excellent], whatever the other two figures are.  The record sitting on
    all three bounds (50, 20, 1) scores [good], and so do the records that
    sit on one bound with the other two figures well inside. *)
Theorem C5_excellent_bounds_are_strict :
  forall (timestamp : number) (networkType cellularGeneration : string)
         (wifiRssi cellularRssi jitterMs : option number)
         (failureReason : option string),
    let record (latency downlink loss : number) :=
      NetworkMeasurement.mk timestamp networkType cellularGeneration
        wifiRssi cellularRssi (Some latency) jitterMs (Some downlink)
        (Some loss) true failureReason in
    (forall latency downlink loss : number,
        scoreNetworkQuality (record latency downlink loss) = excellent <->
        (latency <? 50) = true /\
        gtb downlink 20 = true /\
        (loss <? 1) = true) /\
    (forall downlink loss : number,
        scoreNetworkQuality (record 50 downlink loss) <> excellent) /\
    (forall latency loss : number,
        scoreNetworkQuality (record latency 20 loss) <> excellent) /\
    (forall latency downlink : number,
        scoreNetworkQuality (record latency downlink 1) <> excellent) /\
    scoreNetworkQuality (record 50 20 1) = good /\
    scoreNetworkQuality (record 50 25 0.5) = good /\
    scoreNetworkQuality (record 30 20 0.5) = good /\
    scoreNetworkQuality (record 30 25 1) = good.
Proof.
  intros timestamp networkType cellularGeneration wifiRssi cellularRssi
    jitterMs failureReason record.
  assert (tests : forall latency downlink loss : number,
             scoreNetworkQuality (record latency downlink loss) = excellent ->
             (latency <? 50) = true /\
             gtb downlink 20 = true /\
             (loss <? 1) = true).
  { intros latency downlink loss is_excellent.
    destruct (score_excellent_tests _ is_excellent) as (_ & Hlat & Hdown & Hloss).
    auto. }
  split; [|split; [|split; [|split]]].
  - intros latency downlink loss. split; [apply tests|].
    intros (Hlat & Hdown & Hloss).
    subst record. unfold scoreNetworkQuality.
    cbn [NetworkMeasurement.isConnected negb NetworkMeasurement.latencyMs
      NetworkMeasurement.downlinkMbps NetworkMeasurement.packetLossPercent
      nullish].
    rewrite Hlat, Hdown, Hloss. reflexivity.
  - intros downlink loss is_excellent.
    destruct (tests 50 downlink loss is_excellent) as (on_edge & _).
    discriminate on_edge.
  - intros latency loss is_excellent.
    destruct (tests latency 20 loss is_excellent) as (_ & on_edge & _).
    discriminate on_edge.
  - intros latency downlink is_excellent.
    destruct (tests latency downlink 1 is_excellent) as (_ & _ & on_edge).
    discriminate on_edge.
  - repeat split; reflexivity.
Qed.

(** The spec's first end-to-end scenario, as an instance of C5. *)
Lemma C5_excellent_bounds_are_strict_witness :
  scoreNetworkQuality
    (NetworkMeasurement.mk 0 "wifi" "unknown" None None (Some 30) None
       (Some 25) (Some 0.5) true None)
  = excellent.
Proof.
  apply (proj2 (proj1 (C5_excellent_bounds_are_strict 0 "wifi"%string
                         "unknown"%string None None None None) 30 25 0.5)).
  repeat split; reflexivity.
Defined.

(** C6, as stated, fails: with downlink = 10 Mbps no latency at all makes
    the record [excellent], so the downlink and loss values do not satisfy
    the excellent thresholds by themselves. *)
Lemma C6_downlink_10_is_not_excellent :
  ~ (scoreNetworkQuality
       (NetworkMeasurement.mk 0 "wifi" "unknown" None None None None
          (Some 10) (Some 0.5) true None) = poor /\
     exists latency : number,
       scoreNetworkQuality
         (NetworkMeasurement.mk 0 "wifi" "unknown" None None (Some latency)
            None (Some 10) (Some 0.5) true None) = excellent).
Proof.
  intros [_ [latency Hexcellent]].
  apply score_excellent_inv in Hexcellent.
  cbn in Hexcellent. discriminate Hexcellent.
Qed.

(** C6, amended. A connected record with latency absent, downlink = 10 and
    loss = 0.5 is scored with the sentinel latency 999 and is [poor], even
    though its downlink and loss satisfy the [good] thresholds: with any
    latency below 100 the same record scores [good] (and never
    [excellent]). *)
Theorem C6_absent_latency_forces_poor :
  forall (timestamp : number) (networkType cellularGeneration : string)
         (wifiRssi cellularRssi jitterMs : option number)
         (failureReason : option string),
    let record latencyMs :=
      NetworkMeasurement.mk timestamp networkType cellularGeneration
        wifiRssi cellularRssi latencyMs jitterMs (Some 10) (Some 0.5) true
        failureReason in
    scoreNetworkQuality (record None) = scoreNetworkQuality (record (Some 999)) /\
    scoreNetworkQuality (record None) = poor /\
    (forall latency : number,
        (latency <? 100) = true ->
        scoreNetworkQuality (record (Some latency)) = good) /\
    (forall latency : option number,
        scoreNetworkQuality (record latency) <> excellent).
Proof.
  intros. repeat split; try reflexivity.
  - intros latency Hgood. subst record. unfold scoreNetworkQuality.
    cbn [NetworkMeasurement.isConnected negb NetworkMeasurement.latencyMs
      NetworkMeasurement.downlinkMbps NetworkMeasurement.packetLossPercent
      nullish].
    rewrite Hgood.
    change (gtb 10 20) with false. rewrite andb_false_r.
    reflexivity.
  - intros latency Hexcellent.
    apply score_excellent_inv in Hexcellent.
    cbn in Hexcellent. discriminate Hexcellent.
Qed.

Lemma C6_absent_latency_forces_poor_witness :
  scoreNetworkQuality
    (NetworkMeasurement.mk 0 "wifi" "unknown" None None (Some 75) None
       (Some 10) (Some 0.5) true None)
  = good.
Proof.
  apply (proj1 (proj2 (proj2
           (C6_absent_latency_forces_poor 0 "wifi"%string "unknown"%string
              None None None None))) 75).
  reflexivity.
Defined.

(** C8. Whatever the options and whatever record the native call resolves
    with, the one-shot accessor resolves, with the typed copy of that
    record as [measurement] and the scorer's verdict on that very copy as
    [quality]; it rejects only when the native call does. *)
Theorem C8_one_shot_quality_is_score_of_measurement :
  forall (measureNetwork :
            option MeasureOptions.t -> settled NativeMeasurement.t)
         (options : option MeasureOptions.t),
    match measureNetworkQuality measureNetwork options with
    | Resolved result =>
        NetworkQualityResult.quality result =
          scoreNetworkQuality (NetworkQualityResult.measurement result) /\
        exists raw,
          measureNetwork options = Resolved raw /\
          NetworkQualityResult.measurement result = typedMeasurement raw
    | Rejected reason => measureNetwork options = Rejected reason
    end.
Proof.
  intros measureNetwork options. unfold measureNetworkQuality.
  destruct (measureNetwork options) as [raw|reason]; [|reflexivity].
  cbn. split; [reflexivity|]. exists raw. split; reflexivity.
Qed.

(** C9. A connected record without a loss figure is scored with 100 % loss
    and is [poor], whatever its latency and downlink (and every other
    field) are. *)
Theorem C9_absent_loss_scores_poor :
  forall (timestamp : number) (networkType cellularGeneration : string)
         (wifiRssi cellularRssi latencyMs jitterMs downlinkMbps :
            option number)
         (failureReason : option string),
    let record packetLossPercent :=
      NetworkMeasurement.mk timestamp networkType cellularGeneration
        wifiRssi cellularRssi latencyMs jitterMs downlinkMbps
        packetLossPercent true failureReason in
    scoreNetworkQuality (record None) = scoreNetworkQuality (record (Some 100)) /\
    scoreNetworkQuality (record None) = poor.
Proof.
  intros. subst record.
  assert (Hpoor : forall loss : option number, loss = None \/ loss = Some 100 ->
            scoreNetworkQuality
              (NetworkMeasurement.mk timestamp networkType cellularGeneration
                 wifiRssi cellularRssi latencyMs jitterMs downlinkMbps loss
                 true failureReason) = poor).
  { intros loss Hloss. rewrite score_connected by reflexivity.
    cbn [NetworkMeasurement.latencyMs NetworkMeasurement.downlinkMbps
      NetworkMeasurement.packetLossPercent].
    assert (Hsentinel : @nullish number loss 100 = 100)
      by (destruct Hloss as [-> | ->]; reflexivity).
    rewrite Hsentinel. cbv zeta.
    rewrite sentinel_loss_excellent, sentinel_loss_good, sentinel_loss_fair.
    rewrite !andb_false_r. reflexivity. }
  split; [transitivity poor; [|symmetry]|]; apply Hpoor; auto.
Qed.

(** The same through the one-shot accessor: a native record of a connected
    link that carries no loss figure always comes back as [poor]. *)
Lemma one_shot_without_loss_is_poor
    (measureNetwork : option MeasureOptions.t -> settled NativeMeasurement.t)
    (options : option MeasureOptions.t) (raw : NativeMeasurement.t) :
  measureNetwork options = Resolved raw ->
  NativeMeasurement.isConnected raw = true ->
  NativeMeasurement.packetLossPercent raw = None ->
  exists result,
    measureNetworkQuality measureNetwork options = Resolved result /\
    NetworkQualityResult.quality result = poor.
Proof.
  intros Hnative connected absent. unfold measureNetworkQuality.
  rewrite Hnative. eexists. split; [reflexivity|].
  cbn [NetworkQualityResult.quality].
  apply score_loss_absent; assumption.
Qed.

(** * Properties of the hook *)

Ltac unfold_hook :=
  unfold step, refresh, mountEffect, resumeEffect, onAppStateChange,
    resumeCleanup, performMeasurementResume, completionHandling, tryBlock,
    catchBlock, finallyBlock, callOnMeasure, performMeasurement,
    measureNetworkQuality in *.

Ltac break_branches :=
  repeat match goal with
         | |- context [match ?x with _ => _ end] => destruct x eqn:?
         end.

(** Case analysis on what each [onMeasure] call does. *)
Ltac case_callbacks :=
  repeat match goal with
         | |- context [match ?callback ?result ?error with _ => _ end] =>
             destruct (callback result error)
         end.

Section HookFacts.

Variable options : option UseNetworkQualityOptions.t.

(** *** The guard *)

Lemma performMeasurement_busy (s : Session.t) :
  Session.isMeasuringRef s = true ->
  performMeasurement options s = (s, Fulfilled None).
Proof. intros busy. unfold_hook. rewrite busy. reflexivity. Qed.

Lemma performMeasurement_idle (s : Session.t) :
  Session.isMeasuringRef s = false ->
  performMeasurement options s =
    (Session.callMeasureNetwork (request options)
       (Session.setError None
          (Session.setIsLoading true (Session.setIsMeasuringRef true s))),
     Pending).
Proof. intros idle. unfold_hook. rewrite idle. reflexivity. Qed.

Lemma performMeasurement_idle_runs (s : Session.t) :
  Session.isMeasuringRef s = false ->
  Session.runs (fst (performMeasurement options s)) = S (Session.runs s).
Proof.
  intros idle. rewrite (performMeasurement_idle s idle).
  unfold Session.runs. cbn. rewrite length_app. cbn.
  rewrite <- plus_n_Sm, <- plus_n_O. reflexivity.
Qed.

Lemma performMeasurement_sets_flag (s : Session.t) :
  Session.isMeasuringRef (fst (performMeasurement options s)) = true.
Proof.
  destruct (Session.isMeasuringRef s) eqn:flag.
  - rewrite (performMeasurement_busy s flag). exact flag.
  - rewrite (performMeasurement_idle s flag). reflexivity.
Qed.

(** *** The completion handling *)

(** The [try] and [catch] blocks leave the flag, the listener and the
    bookkeeping of native calls alone. *)
Lemma completionHandling_frame (outcome : settled NativeMeasurement.t)
    (now : number) (s : Session.t) :
  let s' := fst (completionHandling options outcome now s) in
  Session.isMeasuringRef s' = Session.isMeasuringRef s /\
  Session.subscription s' = Session.subscription s /\
  Session.awaiting s' = Session.awaiting s /\
  Session.measureNetworkCalls s' = Session.measureNetworkCalls s.
Proof.
  unfold_hook. destruct outcome; cbn;
    destruct (optional options UseNetworkQualityOptions.onMeasure);
    cbn; case_callbacks; cbn; repeat split; reflexivity.
Qed.

Lemma performMeasurementResume_finally
    (outcome : settled NativeMeasurement.t) (now : number) (s : Session.t) :
  performMeasurementResume options outcome now s =
    (finallyBlock (fst (completionHandling options outcome now s)),
     snd (completionHandling options outcome now s)).
Proof.
  unfold performMeasurementResume.
  destruct (completionHandling options outcome now s). reflexivity.
Qed.

(** On a rejection only the [catch] block runs. *)
Lemma completionHandling_rejected (err : thrown) (now : number)
    (s : Session.t) :
  completionHandling options (Rejected err) now s = catchBlock options err s.
Proof. reflexivity. Qed.

Lemma catchBlock_state (err : thrown) (s : Session.t) :
  let s' := fst (catchBlock options err s) in
  Session.quality s' = None /\
  Session.error s' = Some (errorMsg err) /\
  Session.measurement s' = Session.measurement s /\
  Session.lastMeasuredAt s' = Session.lastMeasuredAt s /\
  Session.onMeasureCalls s' =
    Session.onMeasureCalls s ++
    match optional options UseNetworkQualityOptions.onMeasure with
    | Some _ => [(None, Some (errorMsg err))]
    | None => []
    end.
Proof.
  unfold_hook.
  destruct (optional options UseNetworkQualityOptions.onMeasure);
    cbn; case_callbacks; cbn; rewrite ?app_nil_r; repeat split; reflexivity.
Qed.

(** On a resolution, with a callback that returns, only the [try] block
    runs. *)
Lemma completionHandling_resolved (raw : NativeMeasurement.t) (now : number)
    (s : Session.t) :
  onMeasureReturns options ->
  let s' := fst (completionHandling options (Resolved raw) now s) in
  Session.quality s' = Some (scoreNetworkQuality (typedMeasurement raw)) /\
  Session.measurement s' = Some (typedMeasurement raw) /\
  Session.lastMeasuredAt s' = Some now /\
  Session.error s' = Session.error s.
Proof.
  intros returns. unfold_hook. cbn.
  destruct (optional options UseNetworkQualityOptions.onMeasure)
    as [callback|] eqn:configured; cbn.
  - rewrite (returns callback _ _ configured). cbn.
    repeat split; reflexivity.
  - repeat split; reflexivity.
Qed.

(** *** Steps *)

Lemma step_settle (outcome : settled NativeMeasurement.t) (now : number)
    (s : Session.t) (n : nat) :
  Session.awaiting s = S n ->
  step options s (Settle outcome now) =
    finallyBlock
      (fst (completionHandling options outcome now (Session.setAwaiting n s))).
Proof.
  intros pending. unfold step. rewrite pending.
  rewrite performMeasurementResume_finally. reflexivity.
Qed.

Lemma step_settle_nothing_pending (outcome : settled NativeMeasurement.t)
    (now : number) (s : Session.t) :
  Session.awaiting s = O -> step options s (Settle outcome now) = s.
Proof. intros none. unfold step. rewrite none. reflexivity. Qed.

(** While the flag is set, a refresh or an [AppState] change does
    nothing at all. *)
Lemma step_busy (s : Session.t) (e : event) :
  Session.isMeasuringRef s = true ->
  match e with
  | Refresh | AppStateChange _ => step options s e = s
  | _ => True
  end.
Proof.
  intros busy. destruct e; try exact I; unfold_hook; rewrite busy;
    break_branches; reflexivity.
Qed.

(** Only a settling native promise clears the flag. *)
Lemma flag_cleared_by_settle_only (s : Session.t) (e : event) :
  Session.isMeasuringRef s = true ->
  Session.isMeasuringRef (step options s e) = false ->
  exists outcome now, e = Settle outcome now.
Proof.
  intros busy cleared. destruct e as [|state| |outcome now|].
  - unfold_hook. rewrite busy in cleared.
    destruct (notStrictlyFalse _), (falsy _); cbn in cleared; congruence.
  - pose proof (step_busy s (AppStateChange state) busy) as same.
    cbn beta iota in same. congruence.
  - pose proof (step_busy s Refresh busy) as same.
    cbn beta iota in same. congruence.
  - eauto.
  - cbn in cleared. congruence.
Qed.

(** *** Invariants *)

Lemma run_app (events events' : list event) (s : Session.t) :
  run options (events ++ events') s = run options events' (run options events s).
Proof. apply fold_left_app. Qed.

Lemma run_invariant (P : Session.t -> Prop) :
  (forall s e, P s -> P (step options s e)) ->
  forall events s, P s -> P (run options events s).
Proof.
  intros preserved events.
  induction events as [|e events IH]; intros s holds; cbn.
  - exact holds.
  - apply IH, preserved, holds.
Qed.

Lemma performMeasurement_consistent (s : Session.t) :
  consistent s -> consistent (fst (performMeasurement options s)).
Proof.
  intros inv.
  destruct (Session.isMeasuringRef s) eqn:flag.
  - rewrite (performMeasurement_busy s flag). exact inv.
  - rewrite (performMeasurement_idle s flag).
    destruct inv as [pending _]. rewrite flag in pending.
    split; cbn.
    + rewrite pending. reflexivity.
    + intros _. split; reflexivity.
Qed.

Lemma step_consistent (s : Session.t) (e : event) :
  consistent s -> consistent (step options s e).
Proof.
  intros inv. destruct e as [|state| |outcome now|].
  - unfold step, mountEffect, resumeEffect.
    assert (inv' : consistent
              (if notStrictlyFalse
                    (optional options UseNetworkQualityOptions.measureOnMount)
               then fst (performMeasurement options s) else s))
      by (destruct (notStrictlyFalse _);
          [apply performMeasurement_consistent|]; exact inv).
    destruct (falsy _); [exact inv'|].
    destruct inv' as [pending busy]. split; cbn; assumption.
  - unfold step, onAppStateChange.
    destruct (Session.subscription s); [|exact inv].
    destruct (String.eqb state "active"); [|exact inv].
    apply performMeasurement_consistent, inv.
  - apply performMeasurement_consistent, inv.
  - destruct (Session.isMeasuringRef s) eqn:flag.
    + destruct inv as [pending _]. rewrite flag in pending.
      rewrite (step_settle outcome now s 0 pending).
      destruct (completionHandling_frame outcome now
                  (Session.setAwaiting 0 s)) as (_ & _ & settled_all & _).
      split; cbn; [exact settled_all|discriminate].
    + assert (pending : Session.awaiting s = 0%nat)
        by (destruct inv as [pending _]; rewrite flag in pending;
            exact pending).
      rewrite (step_settle_nothing_pending outcome now s pending).
      exact inv.
  - destruct inv as [pending busy]. split; cbn; assumption.
Qed.

Lemma initial_consistent : consistent Session.initial.
Proof. split; [reflexivity|discriminate]. Qed.

Lemma reachable_consistent (s : Session.t) :
  reachable options s -> consistent s.
Proof.
  intros [events ->].
  apply run_invariant; [apply step_consistent|apply initial_consistent].
Qed.

(** No two runs of one instance overlap. *)
Lemma at_most_one_run_in_flight (s : Session.t) :
  reachable options s -> Session.awaiting s = 0%nat \/ Session.awaiting s = 1%nat.
Proof.
  intros reach. destruct (reachable_consistent s reach) as [pending _].
  rewrite pending. destruct (Session.isMeasuringRef s); auto.
Qed.

End HookFacts.

Section Triggers.

Variable options : option UseNetworkQualityOptions.t.

Lemma performMeasurement_frame (s : Session.t) :
  let s' := fst (performMeasurement options s) in
  Session.subscription s' = Session.subscription s /\
  Session.measurement s' = Session.measurement s /\
  Session.lastMeasuredAt s' = Session.lastMeasuredAt s /\
  Session.quality s' = Session.quality s /\
  (Session.error s' = None \/ Session.error s' = Session.error s).
Proof.
  unfold performMeasurement.
  destruct (Session.isMeasuringRef s); cbn; auto 6.
Qed.

(** The listener is registered by the second effect and removed by its
    cleanup; nothing in between touches it. *)
Lemma step_keeps_subscription (s : Session.t) (e : event) :
  duringLifetime e = true ->
  Session.subscription (step options s e) = Session.subscription s.
Proof.
  intros lifetime. destruct e as [|state| |outcome now|];
    try discriminate lifetime.
  - unfold step, onAppStateChange.
    destruct (Session.subscription s) eqn:subscribed; [|exact subscribed].
    destruct (String.eqb state "active"); [|exact subscribed].
    rewrite <- subscribed. apply performMeasurement_frame.
  - apply performMeasurement_frame.
  - destruct (Session.awaiting s) as [|n] eqn:pending.
    + rewrite step_settle_nothing_pending by exact pending. reflexivity.
    + rewrite (step_settle options outcome now s n pending).
      destruct (completionHandling_frame options outcome now
                  (Session.setAwaiting n s)) as (_ & kept & _).
      cbn. exact kept.
Qed.

Lemma run_keeps_subscription (events : list event) (s : Session.t) :
  forallb duringLifetime events = true ->
  Session.subscription (run options events s) = Session.subscription s.
Proof.
  revert s. induction events as [|e events IH]; intros s lifetime.
  - reflexivity.
  - cbn in lifetime. apply andb_prop in lifetime as [first rest].
    change (run options (e :: events) s)
      with (run options events (step options s e)).
    rewrite (IH _ rest). apply step_keeps_subscription, first.
Qed.

(** With [measureOnResume: true] a mounted instance is listening. *)
Lemma mounted_subscribed (s : Session.t) :
  optional options UseNetworkQualityOptions.measureOnResume = Some true ->
  mounted options s ->
  Session.subscription s = true.
Proof.
  intros enabled (events & lifetime & ->).
  change (run options (Mount :: events) Session.initial)
    with (run options events (step options Session.initial Mount)).
  rewrite (run_keeps_subscription events _ lifetime).
  unfold step, resumeEffect. rewrite enabled. reflexivity.
Qed.

(** With a falsy [measureOnResume] the second effect returns before it
    registers anything, so the instance never listens. *)
Lemma step_never_subscribes (s : Session.t) (e : event) :
  falsy (optional options UseNetworkQualityOptions.measureOnResume) = true ->
  Session.subscription s = false ->
  Session.subscription (step options s e) = false.
Proof.
  intros disabled unsubscribed.
  destruct e as [|state| |outcome now|].
  - unfold step, resumeEffect, mountEffect. rewrite disabled.
    destruct (notStrictlyFalse _); [|exact unsubscribed].
    rewrite <- unsubscribed. apply performMeasurement_frame.
  - rewrite step_keeps_subscription by reflexivity. exact unsubscribed.
  - rewrite step_keeps_subscription by reflexivity. exact unsubscribed.
  - rewrite step_keeps_subscription by reflexivity. exact unsubscribed.
  - reflexivity.
Qed.

Lemma reachable_never_subscribed (s : Session.t) :
  falsy (optional options UseNetworkQualityOptions.measureOnResume) = true ->
  reachable options s ->
  Session.subscription s = false.
Proof.
  intros disabled [events ->].
  apply (run_invariant options (fun s => Session.subscription s = false)).
  - intros s e. apply step_never_subscribes, disabled.
  - reflexivity.
Qed.

(** An [AppState] change nobody listens to changes nothing. *)
Lemma unsubscribed_ignores_app_state (s : Session.t) (state : string) :
  Session.subscription s = false ->
  step options s (AppStateChange state) = s.
Proof. intros unsubscribed. unfold step. rewrite unsubscribed. reflexivity. Qed.

(** [measureOnResume: true]: a return to the foreground calls
    [performMeasurement] once, which starts one run when the instance is
    idle and none when a run is under way. *)
Lemma resume_when_enabled (s : Session.t) :
  optional options UseNetworkQualityOptions.measureOnResume = Some true ->
  mounted options s ->
  step options s (AppStateChange "active") = fst (performMeasurement options s) /\
  (Session.isMeasuringRef s = false ->
   Session.runs (step options s (AppStateChange "active")) = S (Session.runs s)) /\
  (Session.isMeasuringRef s = true ->
   step options s (AppStateChange "active") = s).
Proof.
  intros enabled live.
  assert (called : step options s (AppStateChange "active") =
                   fst (performMeasurement options s)).
  { unfold step. rewrite (mounted_subscribed s enabled live). reflexivity. }
  rewrite called. repeat split.
  - apply performMeasurement_idle_runs.
  - intros busy. rewrite (performMeasurement_busy options s busy). reflexivity.
Qed.

(** [measureOnResume: false]: no change of [AppState] starts a run. *)
Lemma resume_when_disabled (s : Session.t) (state : string) :
  optional options UseNetworkQualityOptions.measureOnResume = Some false ->
  reachable options s ->
  step options s (AppStateChange state) = s.
Proof.
  intros disabled reach. apply unsubscribed_ignores_app_state.
  apply reachable_never_subscribed; [rewrite disabled; reflexivity|exact reach].
Qed.

(** No event replaces a recorded measurement by nothing. *)
Lemma measurement_never_erased (s : Session.t) (e : event)
    (m : NetworkMeasurement.t) :
  Session.measurement s = Some m ->
  exists m', Session.measurement (step options s e) = Some m'.
Proof.
  intros recorded. destruct e as [|state| |outcome now|].
  - exists m. unfold step, resumeEffect, mountEffect.
    assert (kept : Session.measurement
              (if notStrictlyFalse
                    (optional options UseNetworkQualityOptions.measureOnMount)
               then fst (performMeasurement options s) else s) = Some m).
    { destruct (notStrictlyFalse _); [|exact recorded].
      rewrite <- recorded. apply performMeasurement_frame. }
    destruct (falsy _); [exact kept|cbn; exact kept].
  - exists m. unfold step, onAppStateChange.
    destruct (Session.subscription s); [|exact recorded].
    destruct (String.eqb state "active"); [|exact recorded].
    rewrite <- recorded. apply performMeasurement_frame.
  - exists m. rewrite <- recorded. apply performMeasurement_frame.
  - destruct (Session.awaiting s) as [|n] eqn:pending.
    + exists m. rewrite step_settle_nothing_pending by exact pending.
      exact recorded.
    + rewrite (step_settle options outcome now s n pending).
      unfold_hook. destruct outcome; cbn;
        destruct (optional options UseNetworkQualityOptions.onMeasure);
        cbn; case_callbacks; cbn; eauto.
  - exists m. exact recorded.
Qed.

End Triggers.

(** C1, on the code. When [measureOnResume] is left unspecified (no
    options at all, or options without that property) the second effect
    returns before it registers the [AppState] listener: whatever has
    happened to the instance so far, it is not listening, and a return to
    the foreground changes nothing and starts no measurement run. *)
Theorem C1_unspecified_measureOnResume_starts_no_run :
  forall (measureOnMount extended : option bool) (timeoutMs : option number)
         (onMeasure : option onMeasureCallback)
         (events : list event) (state : string),
    let unspecified :=
      Some (UseNetworkQualityOptions.mk None measureOnMount extended
              timeoutMs onMeasure) in
    (Session.subscription (run None events Session.initial) = false /\
     step None (run None events Session.initial) (AppStateChange state)
     = run None events Session.initial) /\
    (Session.subscription (run unspecified events Session.initial) = false /\
     step unspecified (run unspecified events Session.initial)
       (AppStateChange state)
     = run unspecified events Session.initial).
Proof.
  intros.
  assert (ignored : forall options,
             falsy (optional options UseNetworkQualityOptions.measureOnResume)
             = true ->
             Session.subscription (run options events Session.initial) = false /\
             step options (run options events Session.initial)
               (AppStateChange state)
             = run options events Session.initial).
  { intros options disabled.
    assert (unsubscribed :
              Session.subscription (run options events Session.initial) = false)
      by (apply (reachable_never_subscribed options);
          [exact disabled|exists events; reflexivity]).
    split; [exact unsubscribed|].
    apply unsubscribed_ignores_app_state, unsubscribed. }
  split; apply ignored; reflexivity.
Qed.

(** The example application's [useNetworkQuality()]: the mount measurement
    completes, the application returns to the foreground, and the number of
    runs is still one. *)
Example resume_after_default_mount :
  Session.runs
    (run None
       [Mount;
        Settle (Resolved
                  (NativeMeasurement.mk 0 "wifi" "unknown" None None
                     (Some 30) None (Some 25) (Some 0.5) true None)) 1;
        AppStateChange "active"]
       Session.initial)
  = 1%nat.
Proof. reflexivity. Qed.

(** C2. Of two back-to-back [refresh()] calls the second finds the flag
    set, returns at the guard (its promise is already fulfilled with
    [undefined]) and leaves the state exactly as the first call left it.
    From an idle instance the pair therefore starts one run, and in every
    state an instance can reach exactly one run is in flight after it.
    From then on only the settling of the native promise clears the flag,
    and it does so in the [finally] block, after the whole completion
    handling, at the end of which the flag is still set. *)
Theorem C2_second_refresh_is_a_no_op :
  forall (options : option UseNetworkQualityOptions.t) (s : Session.t),
    let s1 := step options s Refresh in
    let s2 := step options s1 Refresh in
    (s2 = s1 /\ refresh options s1 = (s1, Fulfilled None)) /\
    Session.isMeasuringRef s1 = true /\
    (Session.isMeasuringRef s = false ->
     Session.runs s1 = S (Session.runs s) /\
     Session.runs s2 = S (Session.runs s)) /\
    (reachable options s -> Session.awaiting s2 = 1%nat) /\
    (forall e : event,
        Session.isMeasuringRef (step options s2 e) = false ->
        exists outcome now, e = Settle outcome now) /\
    (forall (outcome : settled NativeMeasurement.t) (now : number) (n : nat),
        Session.awaiting s2 = S n ->
        let handled :=
          fst (completionHandling options outcome now
                 (Session.setAwaiting n s2)) in
        step options s2 (Settle outcome now) = finallyBlock handled /\
        Session.isMeasuringRef handled = true /\
        Session.isMeasuringRef (step options s2 (Settle outcome now)) = false).
Proof.
  intros options s s1 s2.
  assert (flag1 : Session.isMeasuringRef s1 = true)
    by exact (performMeasurement_sets_flag options s).
  assert (noop : s2 = s1).
  { subst s2. unfold step, refresh.
    rewrite (performMeasurement_busy options s1 flag1). reflexivity. }
  rewrite noop. split; [|split; [|split; [|split; [|split]]]].
  - split; [reflexivity|]. apply performMeasurement_busy, flag1.
  - exact flag1.
  - intros idle.
    pose proof (performMeasurement_idle_runs options s idle) as started.
    split; exact started.
  - intros reach.
    assert (inv : consistent s1)
      by (apply step_consistent, reachable_consistent with (1 := reach)).
    destruct inv as [pending _]. rewrite flag1 in pending. exact pending.
  - intros e cleared.
    exact (flag_cleared_by_settle_only options s1 e flag1 cleared).
  - intros outcome now n pending handled.
    destruct (completionHandling_frame options outcome now
                (Session.setAwaiting n s1)) as (kept & _).
    split; [|split].
    + apply step_settle, pending.
    + subst handled. rewrite kept. exact flag1.
    + rewrite (step_settle options outcome now s1 n pending). reflexivity.
Qed.

Lemma C2_second_refresh_is_a_no_op_witness :
  Session.runs (run None [Refresh; Refresh] Session.initial) = 1%nat /\
  run None [Refresh; Refresh] Session.initial
  = run None [Refresh] Session.initial /\
  Session.awaiting (run None [Mount; Refresh; Refresh] Session.initial) = 1%nat.
Proof.
  split; [|split].
  - exact (proj2 (proj1 (proj2 (proj2
             (C2_second_refresh_is_a_no_op None Session.initial))) eq_refl)).
  - exact (proj1 (proj1
             (C2_second_refresh_is_a_no_op None Session.initial))).
  - apply (proj1 (proj2 (proj2 (proj2
             (C2_second_refresh_is_a_no_op None
                (run None [Mount] Session.initial)))))).
    exists [Mount]. reflexivity.
Defined.

Section Failure.

Variable options : option UseNetworkQualityOptions.t.

(** The settling of a rejected native promise, seen from the hook. *)
Lemma step_rejected (s : Session.t) (n : nat) (err : thrown) (now : number) :
  Session.awaiting s = S n ->
  let s' := step options s (Settle (Rejected err) now) in
  Session.quality s' = None /\
  Session.error s' = Some (errorMsg err) /\
  Session.onMeasureCalls s' =
    Session.onMeasureCalls s ++
    match optional options UseNetworkQualityOptions.onMeasure with
    | Some _ => [(None, Some (errorMsg err))]
    | None => []
    end /\
  Session.isLoading s' = false /\
  Session.isMeasuringRef s' = false.
Proof.
  intros pending. cbv zeta.
  rewrite (step_settle options (Rejected err) now s n pending).
  rewrite completionHandling_rejected.
  destruct (catchBlock_state options err (Session.setAwaiting n s))
    as (cleared & raised & _ & _ & called).
  cbn. repeat split; assumption.
Qed.

(** The settling of a resolved native promise. *)
Lemma step_resolved (s : Session.t) (n : nat) (raw : NativeMeasurement.t)
    (now : number) :
  onMeasureReturns options ->
  Session.awaiting s = S n ->
  let s' := step options s (Settle (Resolved raw) now) in
  Session.quality s' = Some (scoreNetworkQuality (typedMeasurement raw)) /\
  Session.measurement s' = Some (typedMeasurement raw) /\
  Session.lastMeasuredAt s' = Some now /\
  Session.error s' = Session.error s.
Proof.
  intros returns pending. cbv zeta.
  rewrite (step_settle options (Resolved raw) now s n pending).
  destruct (completionHandling_resolved options raw now
              (Session.setAwaiting n s) returns)
    as (scored & recorded & stamped & kept).
  cbn. repeat split; assumption.
Qed.

(** The error cell goes from empty to set in one way only: a rejected
    native promise settles. *)
Lemma error_raised_by_rejection_only (s : Session.t) (e : event)
    (msg : string) :
  onMeasureReturns options ->
  Session.error s = None ->
  Session.error (step options s e) = Some msg ->
  exists err now, e = Settle (Rejected err) now /\ msg = errorMsg err.
Proof.
  intros returns empty raised.
  assert (quiet : forall s0, Session.error s0 = None ->
            Session.error (fst (performMeasurement options s0)) = None).
  { intros s0 empty0.
    destruct (performMeasurement_frame options s0) as (_ & _ & _ & _ & [H|H]);
      [exact H|rewrite H; exact empty0]. }
  destruct e as [|state| |outcome now|].
  - exfalso. unfold step, resumeEffect, mountEffect in raised.
    assert (still : Session.error
              (if notStrictlyFalse
                    (optional options UseNetworkQualityOptions.measureOnMount)
               then fst (performMeasurement options s) else s) = None)
      by (destruct (notStrictlyFalse _); [apply quiet|]; exact empty).
    destruct (falsy _); cbn in raised; congruence.
  - exfalso. unfold step, onAppStateChange in raised.
    destruct (Session.subscription s); [|congruence].
    destruct (String.eqb state "active"); [|congruence].
    rewrite (quiet s empty) in raised. discriminate raised.
  - exfalso. unfold step, refresh in raised.
    rewrite (quiet s empty) in raised. discriminate raised.
  - destruct (Session.awaiting s) as [|n] eqn:pending.
    + rewrite step_settle_nothing_pending in raised by exact pending.
      congruence.
    + destruct outcome as [raw|err].
      * destruct (step_resolved s n raw now returns pending)
          as (_ & _ & _ & kept).
        congruence.
      * destruct (step_rejected s n err now pending) as (_ & set & _).
        exists err, now. split; congruence.
  - exfalso. cbn in raised. congruence.
Qed.

End Failure.

(** C7, as stated, fails: a rejected native call is not the only thing
    that sets [error].  The hook calls [onMeasure] inside its [try] block;
    with an [onMeasure] that throws when told of a success, the instance
    mounted with it has a run in flight and an empty [error], and the
    native call resolving leaves [error] set to the thrown message. *)
Lemma C7_throwing_onMeasure_also_sets_error :
  ~ (forall (options : option UseNetworkQualityOptions.t) (s : Session.t)
            (e : event) (msg : string),
        reachable options s ->
        Session.error s = None ->
        Session.error (step options s e) = Some msg ->
        exists err now, e = Settle (Rejected err) now /\ msg = errorMsg err).
Proof.
  intros only_rejection.
  pose (options :=
          Some (UseNetworkQualityOptions.mk None None None None
                  (Some (fun result _ =>
                           match result with
                           | Some _ => Some (ErrorObject "render failed")
                           | None => None
                           end)))).
  pose (raw :=
          NativeMeasurement.mk 0 "wifi" "unknown" None None (Some 30) None
            (Some 25) (Some 0.5) true None).
  assert (reach : reachable options (run options [Mount] Session.initial))
    by (exists [Mount]; reflexivity).
  destruct (only_rejection options (run options [Mount] Session.initial)
              (Settle (Resolved raw) 12) "render failed"%string
              reach eq_refl eq_refl)
    as (err & now & is_rejection & _).
  discriminate is_rejection.
Qed.

(** C7, amended. While a run is in flight, the rejection of the native call
    clears [quality], sets [error] to the failure's description, calls
    [onMeasure] (when there is one) with [(null, error)] and ends the run.
    Provided the consumer's own [onMeasure] returns normally, this is the
    only condition that sets [error]: a native call that resolves, whatever
    record it resolves with, leaves [error] empty and sets [quality] to the
    record's score, and no event other than a rejection ever turns an empty
    [error] into a set one. *)
Theorem C7_rejection_is_the_only_failure :
  forall (options : option UseNetworkQualityOptions.t) (s : Session.t),
    reachable options s ->
    Session.isMeasuringRef s = true ->
    (forall (err : thrown) (now : number),
        let s' := step options s (Settle (Rejected err) now) in
        Session.quality s' = None /\
        Session.error s' = Some (errorMsg err) /\
        Session.onMeasureCalls s' =
          Session.onMeasureCalls s ++
          match optional options UseNetworkQualityOptions.onMeasure with
          | Some _ => [(None, Some (errorMsg err))]
          | None => []
          end /\
        Session.isLoading s' = false /\
        Session.isMeasuringRef s' = false) /\
    (onMeasureReturns options ->
     forall (raw : NativeMeasurement.t) (now : number),
       let s' := step options s (Settle (Resolved raw) now) in
       Session.error s' = None /\
       Session.quality s' = Some (scoreNetworkQuality (typedMeasurement raw))) /\
    (onMeasureReturns options ->
     forall (s0 : Session.t) (e : event) (msg : string),
       Session.error s0 = None ->
       Session.error (step options s0 e) = Some msg ->
       exists err now, e = Settle (Rejected err) now /\ msg = errorMsg err).
Proof.
  intros options s reach busy.
  destruct (reachable_consistent options s reach) as [pending cleared].
  rewrite busy in pending. destruct (cleared busy) as [empty _].
  split; [|split].
  - intros err now. exact (step_rejected options s 0 err now pending).
  - intros returns raw now.
    destruct (step_resolved options s 0 raw now returns pending)
      as (scored & _ & _ & kept).
    cbv zeta. split; [rewrite kept; exact empty|exact scored].
  - intros returns s0 e msg.
    exact (error_raised_by_rejection_only options s0 e msg returns).
Qed.

Lemma C7_rejection_is_the_only_failure_witness :
  let options :=
    Some (UseNetworkQualityOptions.mk (Some true) None None None
            (Some (fun _ _ => None))) in
  let s := run options [Mount] Session.initial in
  let failed :=
    step options s (Settle (Rejected (ErrorObject "native module unavailable")) 7) in
  let degraded :=
    step options s
      (Settle (Resolved
                 (NativeMeasurement.mk 0 "cellular" "4G" None None None None
                    None None true (Some "timeout"%string))) 7) in
  (Session.quality failed = None /\
   Session.error failed = Some "native module unavailable"%string /\
   Session.onMeasureCalls failed
   = [(None, Some "native module unavailable"%string)]) /\
  (Session.error degraded = None /\
   Session.quality degraded = Some poor).
Proof.
  intros options s failed degraded.
  assert (reach : reachable options s) by (exists [Mount]; reflexivity).
  assert (busy : Session.isMeasuringRef s = true) by reflexivity.
  assert (returns : onMeasureReturns options).
  { intros callback result error configured.
    injection configured as <-. reflexivity. }
  split.
  - destruct (proj1 (C7_rejection_is_the_only_failure options s reach busy)
                (ErrorObject "native module unavailable") 7)
      as (cleared & raised & called & _).
    repeat split; assumption.
  - exact (proj1 (proj2 (C7_rejection_is_the_only_failure options s reach busy))
             returns
             (NativeMeasurement.mk 0 "cellular" "4G" None None None None
                None None true (Some "timeout"%string)) 7).
Defined.

(** C10. The settling of a rejected native call leaves [measurement] and
    [lastMeasuredAt] as they were, from any state; so does a whole refresh
    that fails. *)
Theorem C10_failure_keeps_last_measurement :
  forall (options : option UseNetworkQualityOptions.t) (s : Session.t)
         (err : thrown) (now : number),
    let failed := step options s (Settle (Rejected err) now) in
    let refreshed := run options [Refresh; Settle (Rejected err) now] s in
    (Session.measurement failed = Session.measurement s /\
     Session.lastMeasuredAt failed = Session.lastMeasuredAt s) /\
    (Session.measurement refreshed = Session.measurement s /\
     Session.lastMeasuredAt refreshed = Session.lastMeasuredAt s).
Proof.
  intros options s err now.
  assert (kept : forall s0,
             Session.measurement (step options s0 (Settle (Rejected err) now))
             = Session.measurement s0 /\
             Session.lastMeasuredAt (step options s0 (Settle (Rejected err) now))
             = Session.lastMeasuredAt s0).
  { intros s0. destruct (Session.awaiting s0) as [|n] eqn:pending.
    - rewrite step_settle_nothing_pending by exact pending.
      split; reflexivity.
    - rewrite (step_settle options (Rejected err) now s0 n pending).
      rewrite completionHandling_rejected.
      destruct (catchBlock_state options err (Session.setAwaiting n s0))
        as (_ & _ & same & stamp & _).
      cbn. split; assumption. }
  cbv zeta. split; [apply kept|].
  change (run options [Refresh; Settle (Rejected err) now] s)
    with (step options (step options s Refresh) (Settle (Rejected err) now)).
  destruct (kept (step options s Refresh)) as [same stamp].
  rewrite same, stamp.
  destruct (performMeasurement_frame options s) as (_ & same' & stamp' & _).
  split; assumption.
Qed.

(** A measurement and its time stamp survive a failed refresh. *)
Example failed_refresh_after_success :
  let options := Some (UseNetworkQualityOptions.mk None None None None None) in
  let raw :=
    NativeMeasurement.mk 0 "wifi" "unknown" None None (Some 30) None
      (Some 25) (Some 0.5) true None in
  let s :=
    run options
      [Mount; Settle (Resolved raw) 1; Refresh;
       Settle (Rejected (OtherValue "timeout")) 2]
      Session.initial in
  Session.quality s = None /\
  Session.error s = Some "timeout"%string /\
  Session.measurement s = Some (typedMeasurement raw) /\
  Session.lastMeasuredAt s = Some 1.
Proof. cbv zeta. repeat split; reflexivity. Qed.

(** * Further properties of the scorer and the one-shot accessor *)

(** From a passed conjunction of three tests to the three tests. *)
Lemma three_tests (a b c : bool) :
  a && b && c = true -> a = true /\ b = true /\ c = true.
Proof. destruct a, b, c; cbn; intros H; try discriminate H; auto. Qed.

(** A test passed against a sentinel-substituted field was passed by a
    value that is really there, when the sentinel itself fails the test. *)
Lemma passed_by_present (field : option number) (sentinel : number)
    (test : number -> bool) :
  test sentinel = false ->
  test (field ?? sentinel) = true ->
  exists v, field = Some v /\ test v = true.
Proof.
  intros fails passes. destruct field as [v|]; cbn in passes.
  - exists v. split; [reflexivity|exact passes].
  - rewrite fails in passes. discriminate passes.
Qed.

(** X1. The scorer returns [offline] exactly for the records that are not
    connected: a connected record, however bad or empty, is never
    [offline]. *)
Theorem X1_offline_iff_disconnected :
  forall m : NetworkMeasurement.t,
    scoreNetworkQuality m = offline <->
    NetworkMeasurement.isConnected m = false.
Proof.
  intros m. unfold scoreNetworkQuality.
  destruct (NetworkMeasurement.isConnected m); cbn [negb]; cbv zeta.
  - split; [|discriminate].
    repeat match goal with
           | |- (if ?c then _ else _) = _ -> _ => destruct c
           end; discriminate.
  - split; reflexivity.
Qed.

(** X2. What a tier certifies. A record scored [fair], [good] or
    [excellent] is connected, carries a latency, a downlink and a loss
    figure (none of them absent), and those figures pass that tier's three
    tests. *)
Theorem X2_tier_certifies_present_measurements :
  forall m : NetworkMeasurement.t,
    let certified (latency : number -> bool) (downlink : number -> bool)
                  (loss : number -> bool) :=
      NetworkMeasurement.isConnected m = true /\
      exists l d p,
        NetworkMeasurement.latencyMs m = Some l /\
        NetworkMeasurement.downlinkMbps m = Some d /\
        NetworkMeasurement.packetLossPercent m = Some p /\
        latency l = true /\ downlink d = true /\ loss p = true in
    match scoreNetworkQuality m with
    | excellent =>
        certified (fun l => l <? 50) (fun d => gtb d 20) (fun p => p <? 1)
    | good =>
        certified (fun l => l <? 100) (fun d => geb d 5) (fun p => p <? 5)
    | fair =>
        certified (fun l => l <? 200) (fun d => geb d 1) (fun p => p <? 10)
    | poor => NetworkMeasurement.isConnected m = true
    | offline => NetworkMeasurement.isConnected m = false
    end.
Proof.
  intros m certified.
  assert (certify : forall (latency downlink loss : number -> bool),
             latency 999 = false -> downlink 0 = false -> loss 100 = false ->
             NetworkMeasurement.isConnected m = true ->
             latency (NetworkMeasurement.latencyMs m ?? 999)
             && downlink (NetworkMeasurement.downlinkMbps m ?? 0)
             && loss (NetworkMeasurement.packetLossPercent m ?? 100) = true ->
             certified latency downlink loss).
  { intros latency downlink loss Hl Hd Hp connected passed.
    apply three_tests in passed as (passed_l & passed_d & passed_p).
    destruct (passed_by_present _ _ latency Hl passed_l) as (l & eql & okl).
    destruct (passed_by_present _ _ downlink Hd passed_d) as (d & eqd & okd).
    destruct (passed_by_present _ _ loss Hp passed_p) as (p & eqp & okp).
    split; [exact connected|]. exists l, d, p. auto 7. }
  destruct (NetworkMeasurement.isConnected m) eqn:connected.
  - rewrite (score_connected m connected). cbv zeta.
    match goal with
    | |- match (if ?c then _ else _) with _ => _ end =>
        destruct c eqn:is_excellent
    end.
    { apply (certify (fun l => l <? 50) (fun d => gtb d 20) (fun p => p <? 1));
        auto. }
    match goal with
    | |- match (if ?c then _ else _) with _ => _ end =>
        destruct c eqn:is_good
    end.
    { apply (certify (fun l => l <? 100) (fun d => geb d 5) (fun p => p <? 5));
        auto. }
    match goal with
    | |- match (if ?c then _ else _) with _ => _ end =>
        destruct c eqn:is_fair
    end.
    { apply (certify (fun l => l <? 200) (fun d => geb d 1) (fun p => p <? 10));
        auto. }
    reflexivity.
  - unfold scoreNetworkQuality. rewrite connected. reflexivity.
Qed.

(** X3. The score reads four fields only: records that agree on
    [isConnected], [latencyMs], [downlinkMbps] and [packetLossPercent] get
    the same tier, whatever their time stamps, network types, signal
    strengths, jitter and failure reasons are. *)
Theorem X3_score_reads_four_fields :
  forall m m' : NetworkMeasurement.t,
    NetworkMeasurement.isConnected m = NetworkMeasurement.isConnected m' ->
    NetworkMeasurement.latencyMs m = NetworkMeasurement.latencyMs m' ->
    NetworkMeasurement.downlinkMbps m = NetworkMeasurement.downlinkMbps m' ->
    NetworkMeasurement.packetLossPercent m
    = NetworkMeasurement.packetLossPercent m' ->
    scoreNetworkQuality m = scoreNetworkQuality m'.
Proof.
  intros m m' connected latency downlink loss.
  unfold scoreNetworkQuality.
  rewrite connected, latency, downlink, loss. reflexivity.
Qed.

Lemma X3_score_reads_four_fields_witness :
  scoreNetworkQuality
    (NetworkMeasurement.mk 0 "wifi" "unknown" (Some (-40)) None (Some 30)
       (Some 2) (Some 25) (Some 0.5) true None)
  = scoreNetworkQuality
      (NetworkMeasurement.mk 1700000000000 "cellular" "2G" None (Some (-120))
         (Some 30) None (Some 25) (Some 0.5) true (Some "degraded"%string)).
Proof.
  apply X3_score_reads_four_fields; reflexivity.
Defined.

(** X4. A connected record in which the latency or the downlink is absent
    scores [poor], whatever the other figures are: a partial measurement
    never reaches a better tier. *)
Theorem X4_partial_measurement_scores_poor :
  forall (timestamp : number) (networkType cellularGeneration : string)
         (wifiRssi cellularRssi latencyMs jitterMs downlinkMbps
            packetLossPercent : option number)
         (failureReason : option string),
    scoreNetworkQuality
      (NetworkMeasurement.mk timestamp networkType cellularGeneration
         wifiRssi cellularRssi None jitterMs downlinkMbps packetLossPercent
         true failureReason) = poor /\
    scoreNetworkQuality
      (NetworkMeasurement.mk timestamp networkType cellularGeneration
         wifiRssi cellularRssi latencyMs jitterMs None packetLossPercent
         true failureReason) = poor.
Proof.
  intros. split.
  - apply score_latency_absent; reflexivity.
  - rewrite score_connected by reflexivity.
    cbn [NetworkMeasurement.latencyMs NetworkMeasurement.downlinkMbps
      NetworkMeasurement.packetLossPercent nullish]. cbv zeta.
    change (gtb 0 20) with false. change (geb 0 5) with false.
    change (geb 0 1) with false.
    rewrite !andb_false_r. reflexivity.
Qed.

(** X5. A connected record in which the latency, the downlink or the loss
    is [NaN] scores [poor], whatever the other figures are: every
    comparison with [NaN] is false. *)
Theorem X5_nan_scores_poor :
  forall (timestamp : number) (networkType cellularGeneration : string)
         (wifiRssi cellularRssi latencyMs jitterMs downlinkMbps
            packetLossPercent : option number)
         (failureReason : option string),
    scoreNetworkQuality
      (NetworkMeasurement.mk timestamp networkType cellularGeneration
         wifiRssi cellularRssi (Some nan) jitterMs downlinkMbps
         packetLossPercent true failureReason) = poor /\
    scoreNetworkQuality
      (NetworkMeasurement.mk timestamp networkType cellularGeneration
         wifiRssi cellularRssi latencyMs jitterMs (Some nan)
         packetLossPercent true failureReason) = poor /\
    scoreNetworkQuality
      (NetworkMeasurement.mk timestamp networkType cellularGeneration
         wifiRssi cellularRssi latencyMs jitterMs downlinkMbps (Some nan)
         true failureReason) = poor.
Proof.
  intros. split; [|split]; rewrite score_connected by reflexivity;
    cbn [NetworkMeasurement.latencyMs NetworkMeasurement.downlinkMbps
      NetworkMeasurement.packetLossPercent nullish]; cbv zeta.
  - change (nan <? 50) with false. change (nan <? 100) with false.
    change (nan <? 200) with false. reflexivity.
  - change (gtb nan 20) with false. change (geb nan 5) with false.
    change (geb nan 1) with false.
    rewrite !andb_false_r. reflexivity.
  - change (nan <? 1) with false. change (nan <? 5) with false.
    change (nan <? 10) with false.
    rewrite !andb_false_r. reflexivity.
Qed.

(** X6. Through the one-shot accessor: when the native call resolves, the
    returned quality is [offline] exactly when the native record says the
    device is not connected, and the returned measurement has the native
    record's scored fields untouched. *)
Theorem X6_one_shot_offline_iff_native_disconnected :
  forall (measureNetwork :
            option MeasureOptions.t -> settled NativeMeasurement.t)
         (options : option MeasureOptions.t) (raw : NativeMeasurement.t),
    measureNetwork options = Resolved raw ->
    exists result,
      measureNetworkQuality measureNetwork options = Resolved result /\
      (NetworkQualityResult.quality result = offline <->
       NativeMeasurement.isConnected raw = false) /\
      NetworkMeasurement.latencyMs (NetworkQualityResult.measurement result)
      = NativeMeasurement.latencyMs raw /\
      NetworkMeasurement.downlinkMbps (NetworkQualityResult.measurement result)
      = NativeMeasurement.downlinkMbps raw /\
      NetworkMeasurement.packetLossPercent
        (NetworkQualityResult.measurement result)
      = NativeMeasurement.packetLossPercent raw.
Proof.
  intros measureNetwork options raw resolved.
  unfold measureNetworkQuality. rewrite resolved.
  eexists. split; [reflexivity|]. cbn.
  split; [|repeat split].
  destruct (NativeMeasurement.isConnected raw) eqn:connected.
  - split; [|discriminate]. intros is_offline.
    assert (typed_connected :
              NetworkMeasurement.isConnected (typedMeasurement raw) = true)
      by exact connected.
    rewrite (score_connected _ typed_connected) in is_offline.
    cbv zeta in is_offline.
    repeat match type of is_offline with
           | (if ?c then _ else _) = _ => destruct c
           end; discriminate is_offline.
  - split; [reflexivity|]. intros _.
    unfold scoreNetworkQuality. cbn. rewrite connected. reflexivity.
Qed.

Lemma X6_one_shot_offline_iff_native_disconnected_witness :
  exists result,
    measureNetworkQuality
      (fun _ => Resolved
                  (NativeMeasurement.mk 0 "none" "unknown" None None None None
                     None None false (Some "offline"%string)))
      None = Resolved result /\
    NetworkQualityResult.quality result = offline.
Proof.
  destruct (X6_one_shot_offline_iff_native_disconnected
              (fun _ => Resolved
                          (NativeMeasurement.mk 0 "none" "unknown" None None
                             None None None None false
                             (Some "offline"%string)))
              None _ eq_refl) as (result & resolved & is_offline & _).
  exists result. split; [exact resolved|].
  apply is_offline. reflexivity.
Defined.

(** * Further properties of the hook *)

Section Coherence.

Variable options : option UseNetworkQualityOptions.t.

Lemma performMeasurement_coherent (s : Session.t) :
  coherent options s -> coherent options (fst (performMeasurement options s)).
Proof.
  intros inv. destruct (Session.isMeasuringRef s) eqn:flag.
  - rewrite (performMeasurement_busy options s flag). exact inv.
  - rewrite (performMeasurement_idle options s flag).
    destruct inv as (loading & failed & scored & stamped & requests).
    unfold coherent. cbn.
    split; [reflexivity|split; [|split; [|split]]].
    + intros raised. exfalso. apply raised. reflexivity.
    + exact scored.
    + exact stamped.
    + apply Forall_app. split; [exact requests|].
      constructor; [reflexivity|constructor].
Qed.

(** A pending promise means a run is under way, with the error cell
    cleared. *)
Lemma pending_means_busy (s : Session.t) (n : nat) :
  consistent s -> Session.awaiting s = S n ->
  n = 0%nat /\ Session.isMeasuringRef s = true /\ Session.error s = None.
Proof.
  intros [pending busy] awaiting. rewrite awaiting in pending.
  destruct (Session.isMeasuringRef s); [|discriminate pending].
  injection pending as ->. destruct (busy eq_refl) as [empty _]. auto.
Qed.

Lemma settle_coherent (s : Session.t) (n : nat)
    (outcome : settled NativeMeasurement.t) (now : number) :
  Session.error s = None ->
  coherent options s ->
  coherent options
    (finallyBlock
       (fst (completionHandling options outcome now (Session.setAwaiting n s)))).
Proof.
  intros empty (loading & failed & scored & stamped & requests).
  unfold completionHandling, tryBlock, catchBlock, callOnMeasure,
    measureNetworkQuality, finallyBlock, coherent.
  destruct outcome as [raw|err]; cbn;
    destruct (optional options UseNetworkQualityOptions.onMeasure); cbn;
    case_callbacks; cbn; rewrite ?empty;
    (split; [reflexivity|]);
    (split; [try reflexivity; intros raised; exfalso; apply raised; reflexivity|]);
    (split; [intros q is_q; try discriminate is_q;
             try (injection is_q as <-; eexists; split; reflexivity)|]);
    (split; [try exact stamped; split; discriminate|exact requests]).
Qed.

Lemma step_coherent (s : Session.t) (e : event) :
  consistent s /\ coherent options s ->
  consistent (step options s e) /\ coherent options (step options s e).
Proof.
  intros [inv inv']. split; [apply step_consistent, inv|].
  destruct e as [|state| |outcome now|].
  - unfold step, mountEffect, resumeEffect.
    assert (started : coherent options
              (if notStrictlyFalse
                    (optional options UseNetworkQualityOptions.measureOnMount)
               then fst (performMeasurement options s) else s))
      by (destruct (notStrictlyFalse _);
          [apply performMeasurement_coherent|]; exact inv').
    destruct (falsy _); [exact started|exact started].
  - unfold step, onAppStateChange.
    destruct (Session.subscription s); [|exact inv'].
    destruct (String.eqb state "active"); [|exact inv'].
    apply performMeasurement_coherent, inv'.
  - apply performMeasurement_coherent, inv'.
  - destruct (Session.awaiting s) as [|n] eqn:pending.
    + rewrite step_settle_nothing_pending by exact pending. exact inv'.
    + rewrite (step_settle options outcome now s n pending).
      destruct (pending_means_busy s n inv pending) as (_ & _ & empty).
      apply settle_coherent; assumption.
  - exact inv'.
Qed.

Lemma reachable_coherent (s : Session.t) :
  reachable options s -> consistent s /\ coherent options s.
Proof.
  intros [events ->].
  apply (run_invariant options
           (fun s => consistent s /\ coherent options s)).
  - intros s e. apply step_coherent.
  - split; [apply initial_consistent|].
    unfold coherent. cbn.
    split; [reflexivity|split; [reflexivity|split; [|split]]].
    + intros q is_q. discriminate is_q.
    + split; reflexivity.
    + constructor.
Qed.

End Coherence.

(** X7. The mount effect starts a measurement run, and turns the loading
    indicator on, when [measureOnMount] is left unspecified (with or
    without an options object) or is [true]; with [measureOnMount: false]
    mounting starts nothing. *)
Theorem X7_mount_measures_unless_disabled :
  forall (measureOnResume extended : option bool) (timeoutMs : option number)
         (onMeasure : option onMeasureCallback),
    let given measureOnMount :=
      Some (UseNetworkQualityOptions.mk measureOnResume measureOnMount
              extended timeoutMs onMeasure) in
    let mountedWith options := step options Session.initial Mount in
    (Session.runs (mountedWith None) = 1%nat /\
     Session.isLoading (mountedWith None) = true) /\
    (Session.runs (mountedWith (given None)) = 1%nat /\
     Session.isLoading (mountedWith (given None)) = true) /\
    (Session.runs (mountedWith (given (Some true))) = 1%nat /\
     Session.isLoading (mountedWith (given (Some true))) = true) /\
    (Session.runs (mountedWith (given (Some false))) = 0%nat /\
     Session.isLoading (mountedWith (given (Some false))) = false).
Proof.
  intros. subst given mountedWith. cbv beta.
  destruct measureOnResume as [[|]|]; cbn; auto 8.
Qed.

(** X8. Every call the hook makes to the native module carries both
    options, defaulted on the JavaScript side: [extended] is the consumer's
    value or [true], [timeoutMs] the consumer's value or 3000. *)
Theorem X8_native_calls_carry_defaulted_options :
  forall (options : option UseNetworkQualityOptions.t) (events : list event),
    Forall
      (fun call =>
         call =
           Some {| MeasureOptions.extended :=
                     Some (match options with
                           | Some o => UseNetworkQualityOptions.extended o
                           | None => None
                           end ?? true);
                   MeasureOptions.timeoutMs :=
                     Some (match options with
                           | Some o => UseNetworkQualityOptions.timeoutMs o
                           | None => None
                           end ?? 3000) |})
      (Session.measureNetworkCalls (run options events Session.initial)).
Proof.
  intros options events.
  assert (reach : reachable options (run options events Session.initial))
    by (exists events; reflexivity).
  destruct (reachable_coherent options _ reach)
    as (_ & _ & _ & _ & _ & requests).
  exact requests.
Qed.

(** X9. In every state an instance reaches, [isLoading] is true exactly
    while the flag is set, and then exactly one native call is pending;
    otherwise none is. *)
Theorem X9_isLoading_iff_one_call_pending :
  forall (options : option UseNetworkQualityOptions.t) (events : list event),
    let s := run options events Session.initial in
    Session.isLoading s = Session.isMeasuringRef s /\
    Session.awaiting s = (if Session.isLoading s then 1%nat else 0%nat).
Proof.
  intros options events s.
  assert (reach : reachable options s) by (exists events; reflexivity).
  destruct (reachable_coherent options s reach)
    as ((pending & _) & loading & _).
  split; [exact loading|]. rewrite loading. exact pending.
Qed.

(** X10. In every state an instance reaches, a [quality] that is set is
    the score of the [measurement] that is set with it; and [measurement]
    is set exactly when [lastMeasuredAt] is. *)
Theorem X10_quality_is_score_of_measurement :
  forall (options : option UseNetworkQualityOptions.t) (events : list event),
    let s := run options events Session.initial in
    match Session.quality s with
    | Some q =>
        exists m, Session.measurement s = Some m /\ q = scoreNetworkQuality m
    | None => True
    end /\
    (Session.measurement s = None <-> Session.lastMeasuredAt s = None).
Proof.
  intros options events s.
  assert (reach : reachable options s) by (exists events; reflexivity).
  destruct (reachable_coherent options s reach)
    as (_ & _ & _ & scored & stamped & _).
  split; [|exact stamped].
  destruct (Session.quality s) as [q|]; [|exact I].
  apply scored. reflexivity.
Qed.

(** X11. In every state an instance reaches, a set [error] comes with a
    cleared [quality] and with the loading indicator off: an error and a
    tier are never shown together, nor an error during a run. *)
Theorem X11_error_excludes_quality_and_loading :
  forall (options : option UseNetworkQualityOptions.t) (events : list event),
    let s := run options events Session.initial in
    match Session.error s with
    | Some _ => Session.quality s = None /\ Session.isLoading s = false
    | None => True
    end.
Proof.
  intros options events s.
  assert (reach : reachable options s) by (exists events; reflexivity).
  destruct (reachable_coherent options s reach)
    as ((_ & busy) & loading & failed & _).
  destruct (Session.error s) as [msg|] eqn:raised; [|exact I].
  split.
  - apply failed. discriminate.
  - rewrite loading.
    destruct (Session.isMeasuringRef s); [|reflexivity].
    destruct (busy eq_refl) as [empty _]. discriminate empty.
Qed.

Section Completion.

Variable options : option UseNetworkQualityOptions.t.

(** What the [try] block records of a successful measurement, whether the
    consumer's callback then returns or throws. *)
Lemma tryBlock_records (raw : NativeMeasurement.t) (now : number)
    (s : Session.t) :
  let result :=
    {| NetworkQualityResult.quality :=
         scoreNetworkQuality (typedMeasurement raw);
       NetworkQualityResult.measurement := typedMeasurement raw |} in
  let recorded :=
    Session.setLastMeasuredAt (Some now)
      (Session.setMeasurement (Some (typedMeasurement raw))
         (Session.setQuality
            (Some (scoreNetworkQuality (typedMeasurement raw))) s)) in
  tryBlock options (Resolved raw) now s =
    match optional options UseNetworkQualityOptions.onMeasure with
    | Some callback =>
        (Session.recordOnMeasure (Some result, None) recorded,
         match callback (Some result) None with
         | None => inl result
         | Some err => inr err
         end)
    | None => (recorded, inl result)
    end.
Proof.
  unfold tryBlock, callOnMeasure, measureNetworkQuality. cbn.
  destruct (optional options UseNetworkQualityOptions.onMeasure); cbn;
    [case_callbacks|]; reflexivity.
Qed.

(** Each completed run appends to the calls of a configured callback that
    returns normally exactly one call. *)
Lemma settle_reports_once (callback : onMeasureCallback) (s : Session.t)
    (n : nat) (outcome : settled NativeMeasurement.t) (now : number) :
  optional options UseNetworkQualityOptions.onMeasure = Some callback ->
  onMeasureReturns options ->
  Session.awaiting s = S n ->
  let s' := step options s (Settle outcome now) in
  length (Session.onMeasureCalls s') = S (length (Session.onMeasureCalls s)) /\
  Session.awaiting s' = n /\
  Session.runs s' = Session.runs s.
Proof.
  intros configured returns pending. cbv zeta.
  rewrite (step_settle options outcome now s n pending).
  unfold completionHandling, tryBlock, catchBlock, callOnMeasure,
    measureNetworkQuality, finallyBlock, Session.runs.
  destruct outcome as [raw|err]; cbn; rewrite configured; cbn;
    rewrite (returns callback _ _ configured); cbn;
    rewrite last_length; auto.
Qed.

Lemma step_reports_once (callback : onMeasureCallback) (s : Session.t)
    (e : event) :
  optional options UseNetworkQualityOptions.onMeasure = Some callback ->
  onMeasureReturns options ->
  (length (Session.onMeasureCalls s) + Session.awaiting s)%nat = Session.runs s ->
  (length (Session.onMeasureCalls (step options s e))
   + Session.awaiting (step options s e))%nat
  = Session.runs (step options s e).
Proof.
  intros configured returns inv.
  assert (started : forall s0,
             (length (Session.onMeasureCalls s0) + Session.awaiting s0)%nat
             = Session.runs s0 ->
             (length (Session.onMeasureCalls (fst (performMeasurement options s0)))
              + Session.awaiting (fst (performMeasurement options s0)))%nat
             = Session.runs (fst (performMeasurement options s0))).
  { intros s0 inv0. unfold performMeasurement, Session.runs in *.
    destruct (Session.isMeasuringRef s0); cbn; [exact inv0|].
    rewrite last_length, <- plus_n_Sm. f_equal. exact inv0. }
  destruct e as [|state| |outcome now|].
  - unfold step, mountEffect, resumeEffect.
    assert (after : forall s0,
               (length (Session.onMeasureCalls s0) + Session.awaiting s0)%nat
               = Session.runs s0 ->
               (length (Session.onMeasureCalls
                          (if falsy (optional options
                                       UseNetworkQualityOptions.measureOnResume)
                           then s0 else Session.setSubscription true s0))
                + Session.awaiting
                    (if falsy (optional options
                                 UseNetworkQualityOptions.measureOnResume)
                     then s0 else Session.setSubscription true s0))%nat
               = Session.runs
                   (if falsy (optional options
                                UseNetworkQualityOptions.measureOnResume)
                    then s0 else Session.setSubscription true s0))
      by (intros s0 inv0; destruct (falsy _); exact inv0).
    apply after. destruct (notStrictlyFalse _); [apply started|]; exact inv.
  - unfold step, onAppStateChange.
    destruct (Session.subscription s); [|exact inv].
    destruct (String.eqb state "active"); [|exact inv].
    apply started, inv.
  - apply started, inv.
  - destruct (Session.awaiting s) as [|n] eqn:pending.
    + rewrite step_settle_nothing_pending by exact pending.
      rewrite pending. exact inv.
    + destruct (settle_reports_once callback s n outcome now
                  configured returns pending) as (called & left & same).
      rewrite called, left, same, <- inv. cbn. rewrite <- plus_n_Sm. reflexivity.
  - exact inv.
Qed.

End Completion.

(** X12. The success transition. When the native call of a run in flight
    resolves, with any record, and [onMeasure] (if any) returns normally:
    [quality] becomes the record's score, [measurement] its typed copy,
    [lastMeasuredAt] the current time, [error] is empty, the loading
    indicator and the flag are off, [onMeasure] has been called once more,
    with [(result, null)], and no new run has been started. *)
Theorem X12_resolved_run_becomes_ready :
  forall (options : option UseNetworkQualityOptions.t) (events : list event)
         (raw : NativeMeasurement.t) (now : number),
    let s := run options events Session.initial in
    let s' := step options s (Settle (Resolved raw) now) in
    let result :=
      {| NetworkQualityResult.quality :=
           scoreNetworkQuality (typedMeasurement raw);
         NetworkQualityResult.measurement := typedMeasurement raw |} in
    Session.isMeasuringRef s = true ->
    onMeasureReturns options ->
    Session.quality s' = Some (scoreNetworkQuality (typedMeasurement raw)) /\
    Session.measurement s' = Some (typedMeasurement raw) /\
    Session.lastMeasuredAt s' = Some now /\
    Session.error s' = None /\
    Session.isLoading s' = false /\
    Session.isMeasuringRef s' = false /\
    Session.onMeasureCalls s' =
      Session.onMeasureCalls s ++
      match optional options UseNetworkQualityOptions.onMeasure with
      | Some _ => [(Some result, None)]
      | None => []
      end /\
    Session.runs s' = Session.runs s.
Proof.
  intros options events raw now s s' result busy returns.
  assert (reach : reachable options s) by (exists events; reflexivity).
  destruct (reachable_consistent options s reach) as [pending cleared].
  rewrite busy in pending. destruct (cleared busy) as [empty _].
  subst s'. rewrite (step_settle options (Resolved raw) now s 0 pending).
  unfold completionHandling. rewrite tryBlock_records.
  unfold finallyBlock, Session.runs.
  destruct (optional options UseNetworkQualityOptions.onMeasure)
    as [callback|] eqn:configured; cbn.
  - rewrite (returns callback _ _ configured). cbn. rewrite empty.
    repeat split; reflexivity.
  - rewrite empty, app_nil_r. repeat split; reflexivity.
Qed.

Lemma X12_resolved_run_becomes_ready_witness :
  let options :=
    Some (UseNetworkQualityOptions.mk None None None None
            (Some (fun _ _ => None))) in
  let raw :=
    NativeMeasurement.mk 0 "wifi" "unknown" None None (Some 150) None
      (Some 2) (Some 3) true None in
  let s := run options [Mount; Settle (Resolved raw) 12] Session.initial in
  Session.quality s = Some fair /\
  Session.lastMeasuredAt s = Some 12 /\
  Session.isLoading s = false.
Proof.
  intros options raw s.
  assert (returns : onMeasureReturns options).
  { intros callback result error configured.
    injection configured as <-. reflexivity. }
  destruct (X12_resolved_run_becomes_ready options [Mount] raw 12
              eq_refl returns)
    as (scored & _ & stamped & _ & idle & _).
  repeat split; assumption.
Defined.

(** X13. When the native call resolves but the consumer's [onMeasure]
    throws on being told so, the [catch] block runs after the [try] block's
    updates: [measurement] and [lastMeasuredAt] keep the new values, while
    [quality] is cleared, [error] is the thrown value's text, and
    [onMeasure] is called a second time, with [(null, error)]. *)
Theorem X13_throwing_callback_turns_success_into_failure :
  forall (options : option UseNetworkQualityOptions.t)
         (callback : onMeasureCallback) (s : Session.t) (n : nat)
         (raw : NativeMeasurement.t) (now : number) (thrownValue : thrown),
    let result :=
      {| NetworkQualityResult.quality :=
           scoreNetworkQuality (typedMeasurement raw);
         NetworkQualityResult.measurement := typedMeasurement raw |} in
    let s' := step options s (Settle (Resolved raw) now) in
    optional options UseNetworkQualityOptions.onMeasure = Some callback ->
    callback (Some result) None = Some thrownValue ->
    Session.awaiting s = S n ->
    Session.quality s' = None /\
    Session.error s' = Some (errorMsg thrownValue) /\
    Session.measurement s' = Some (typedMeasurement raw) /\
    Session.lastMeasuredAt s' = Some now /\
    Session.onMeasureCalls s' =
      Session.onMeasureCalls s ++
      [(Some result, None); (None, Some (errorMsg thrownValue))] /\
    Session.isLoading s' = false /\
    Session.isMeasuringRef s' = false.
Proof.
  intros options callback s n raw now thrownValue result s'
    configured throws pending.
  subst s'. rewrite (step_settle options (Resolved raw) now s n pending).
  unfold completionHandling. rewrite tryBlock_records.
  rewrite configured. fold result. rewrite throws.
  unfold catchBlock, callOnMeasure, finallyBlock. rewrite configured.
  cbn. case_callbacks; cbn; rewrite <- app_assoc; repeat split; reflexivity.
Qed.

Lemma X13_throwing_callback_turns_success_into_failure_witness :
  let options :=
    Some (UseNetworkQualityOptions.mk None None None None
            (Some (fun result _ =>
                     match result with
                     | Some _ => Some (ErrorObject "render failed")
                     | None => None
                     end))) in
  let raw :=
    NativeMeasurement.mk 0 "wifi" "unknown" None None (Some 30) None
      (Some 25) (Some 0.5) true None in
  let s := run options [Mount; Settle (Resolved raw) 12] Session.initial in
  Session.quality s = None /\
  Session.error s = Some "render failed"%string /\
  Session.measurement s = Some (typedMeasurement raw).
Proof.
  intros options raw s.
  destruct (X13_throwing_callback_turns_success_into_failure options
              (fun result _ =>
                 match result with
                 | Some _ => Some (ErrorObject "render failed")
                 | None => None
                 end)
              (run options [Mount] Session.initial) 0 raw 12
              (ErrorObject "render failed") eq_refl eq_refl eq_refl)
    as (cleared & raised & recorded & _).
  repeat split; assumption.
Defined.

(** X14. How the promise returned by [refresh()] settles when the run it
    started completes and [onMeasure] (if any) returns normally: with the
    result when the native call resolves, and with [undefined], not with a
    rejection, when the native call rejects. *)
Theorem X14_refresh_promise_never_rejects :
  forall (options : option UseNetworkQualityOptions.t) (s : Session.t)
         (outcome : settled NativeMeasurement.t) (now : number),
    onMeasureReturns options ->
    snd (performMeasurementResume options outcome now s) =
      match outcome with
      | Resolved raw =>
          Resolved
            (Some {| NetworkQualityResult.quality :=
                       scoreNetworkQuality (typedMeasurement raw);
                     NetworkQualityResult.measurement :=
                       typedMeasurement raw |})
      | Rejected _ => Resolved None
      end.
Proof.
  intros options s outcome now returns.
  rewrite performMeasurementResume_finally. cbn [snd].
  unfold completionHandling, tryBlock, catchBlock, callOnMeasure,
    measureNetworkQuality.
  destruct outcome as [raw|err]; cbn;
    destruct (optional options UseNetworkQualityOptions.onMeasure)
      as [callback|] eqn:configured; cbn;
    rewrite ?(returns callback _ _ configured); reflexivity.
Qed.

Lemma X14_refresh_promise_never_rejects_witness :
  snd (performMeasurementResume None
         (Rejected (ErrorObject "native module unavailable")) 3
         (fst (refresh None Session.initial)))
  = Resolved None.
Proof.
  apply (X14_refresh_promise_never_rejects None
           (fst (refresh None Session.initial))
           (Rejected (ErrorObject "native module unavailable")) 3).
  intros callback result error configured. discriminate configured.
Defined.

(** X15. With an [onMeasure] that returns normally, the callback is called
    exactly once for every run that has completed: in every state an
    instance reaches, the calls made to it and the runs still in flight add
    up to the runs started. *)
Theorem X15_onMeasure_called_once_per_completed_run :
  forall (options : option UseNetworkQualityOptions.t)
         (callback : onMeasureCallback) (events : list event),
    let s := run options events Session.initial in
    optional options UseNetworkQualityOptions.onMeasure = Some callback ->
    onMeasureReturns options ->
    (length (Session.onMeasureCalls s) + Session.awaiting s)%nat
    = Session.runs s.
Proof.
  intros options callback events s configured returns. subst s.
  apply (run_invariant options
           (fun s => (length (Session.onMeasureCalls s)
                      + Session.awaiting s)%nat = Session.runs s)).
  - intros s e.
    exact (step_reports_once options callback s e configured returns).
  - reflexivity.
Qed.

Lemma X15_onMeasure_called_once_per_completed_run_witness :
  let options :=
    Some (UseNetworkQualityOptions.mk None None None None
            (Some (fun _ _ => None))) in
  let raw :=
    NativeMeasurement.mk 0 "wifi" "unknown" None None (Some 30) None
      (Some 25) (Some 0.5) true None in
  let s :=
    run options
      [Mount; Settle (Resolved raw) 1; Refresh;
       Settle (Rejected (OtherValue "timeout")) 2; Refresh]
      Session.initial in
  (length (Session.onMeasureCalls s) + Session.awaiting s)%nat = Session.runs s.
Proof.
  intros options raw s.
  apply (X15_onMeasure_called_once_per_completed_run options
           (fun _ _ => None)); [reflexivity|].
  intros callback result error configured.
  injection configured as <-. reflexivity.
Defined.

(** X16. The resume trigger with [measureOnResume] given explicitly. With
    [true], on a mounted instance, a change of [AppState] to ['active']
    starts exactly one run when no run is in flight and changes nothing
    when one is; with [false], no change of [AppState] ever changes
    anything. *)
Theorem X16_explicit_measureOnResume_is_honoured :
  forall (options : option UseNetworkQualityOptions.t) (s : Session.t),
    (optional options UseNetworkQualityOptions.measureOnResume = Some true ->
     mounted options s ->
     (Session.isMeasuringRef s = false ->
      Session.runs (step options s (AppStateChange "active"))
      = S (Session.runs s)) /\
     (Session.isMeasuringRef s = true ->
      step options s (AppStateChange "active") = s)) /\
    (optional options UseNetworkQualityOptions.measureOnResume = Some false ->
     reachable options s ->
     forall state, step options s (AppStateChange state) = s).
Proof.
  intros options s. split.
  - intros enabled live.
    destruct (resume_when_enabled options s enabled live)
      as (_ & idle & busy).
    split; assumption.
  - intros disabled reach state.
    exact (resume_when_disabled options s state disabled reach).
Qed.

Lemma X16_explicit_measureOnResume_is_honoured_witness :
  let enabled :=
    Some (UseNetworkQualityOptions.mk (Some true) (Some false) None None None) in
  let disabled :=
    Some (UseNetworkQualityOptions.mk (Some false) (Some false) None None None) in
  Session.runs (run enabled [Mount; AppStateChange "active"] Session.initial)
  = 1%nat /\
  run disabled [Mount; AppStateChange "active"] Session.initial
  = run disabled [Mount] Session.initial.
Proof.
  intros enabled disabled. split.
  - apply (proj1 (proj1 (X16_explicit_measureOnResume_is_honoured enabled
                           (run enabled [Mount] Session.initial))
                    eq_refl
                    (ex_intro _ [] (conj eq_refl eq_refl)))).
    reflexivity.
  - apply (proj2 (X16_explicit_measureOnResume_is_honoured disabled
                    (run disabled [Mount] Session.initial))
             eq_refl).
    exists [Mount]. reflexivity.
Defined.

(** X17. A change of [AppState] to anything but ['active'] (going to the
    background, becoming inactive) changes nothing, listener or not. *)
Theorem X17_only_active_triggers :
  forall (options : option UseNetworkQualityOptions.t) (s : Session.t)
         (state : string),
    state <> "active"%string ->
    step options s (AppStateChange state) = s.
Proof.
  intros options s state other. unfold step, onAppStateChange.
  apply String.eqb_neq in other. rewrite other.
  destruct (Session.subscription s); reflexivity.
Qed.

Lemma X17_only_active_triggers_witness :
  let options :=
    Some (UseNetworkQualityOptions.mk (Some true) (Some false) None None None) in
  run options [Mount; AppStateChange "background"] Session.initial
  = run options [Mount] Session.initial.
Proof.
  intros options.
  apply (X17_only_active_triggers options
           (run options [Mount] Session.initial) "background").
  discriminate.
Defined.

(** X18. The cleanup of the resume effect removes the listener: after an
    unmount, and until the effects run again, no change of [AppState]
    changes anything, whatever [measureOnResume] is. *)
Theorem X18_unmount_stops_listening :
  forall (options : option UseNetworkQualityOptions.t) (s : Session.t)
         (events : list event) (state : string),
    forallb duringLifetime events = true ->
    let s' := run options events (step options s Unmount) in
    Session.subscription s' = false /\
    step options s' (AppStateChange state) = s'.
Proof.
  intros options s events state lifetime s'.
  assert (removed : Session.subscription s' = false).
  { subst s'. rewrite (run_keeps_subscription options events _ lifetime).
    reflexivity. }
  split; [exact removed|].
  apply unsubscribed_ignores_app_state, removed.
Qed.

Lemma X18_unmount_stops_listening_witness :
  let options :=
    Some (UseNetworkQualityOptions.mk (Some true) (Some false) None None None) in
  Session.runs
    (run options [Mount; Unmount; Refresh; AppStateChange "active"]
       Session.initial)
  = Session.runs (run options [Mount; Unmount; Refresh] Session.initial).
Proof.
  intros options.
  change (run options [Mount; Unmount; Refresh; AppStateChange "active"]
            Session.initial)
    with (step options
            (run options [Refresh]
               (step options (run options [Mount] Session.initial) Unmount))
            (AppStateChange "active")).
  rewrite (proj2 (X18_unmount_stops_listening options
                    (run options [Mount] Session.initial) [Refresh]
                    "active" eq_refl)).
  reflexivity.
Defined.

(** X19. The flag cannot get stuck. Whatever way the native call of a run
    in flight settles, and even when [onMeasure] throws, the instance is
    idle afterwards (flag and loading indicator off, nothing pending), and
    the next [refresh()] starts a new run. *)
Theorem X19_settled_run_frees_the_instance :
  forall (options : option UseNetworkQualityOptions.t) (events : list event)
         (outcome : settled NativeMeasurement.t) (now : number),
    let s := run options events Session.initial in
    let s' := step options s (Settle outcome now) in
    Session.isMeasuringRef s = true ->
    Session.isMeasuringRef s' = false /\
    Session.isLoading s' = false /\
    Session.awaiting s' = 0%nat /\
    Session.runs s' = Session.runs s /\
    Session.runs (step options s' Refresh) = S (Session.runs s).
Proof.
  intros options events outcome now s s' busy.
  assert (reach : reachable options s) by (exists events; reflexivity).
  destruct (reachable_consistent options s reach) as [pending _].
  rewrite busy in pending.
  assert (settled_state :
            s' = finallyBlock
                   (fst (completionHandling options outcome now
                           (Session.setAwaiting 0 s))))
    by exact (step_settle options outcome now s 0 pending).
  destruct (completionHandling_frame options outcome now
              (Session.setAwaiting 0 s)) as (_ & _ & none & calls).
  assert (idle : Session.isMeasuringRef s' = false)
    by (rewrite settled_state; reflexivity).
  assert (same : Session.runs s' = Session.runs s).
  { rewrite settled_state. unfold Session.runs, finallyBlock. cbn.
    rewrite calls. reflexivity. }
  repeat split.
  - exact idle.
  - rewrite settled_state. reflexivity.
  - rewrite settled_state. cbn. exact none.
  - exact same.
  - rewrite <- same. exact (performMeasurement_idle_runs options s' idle).
Qed.

Lemma X19_settled_run_frees_the_instance_witness :
  let options :=
    Some (UseNetworkQualityOptions.mk None None None None
            (Some (fun _ _ => Some (OtherValue "callback failed")))) in
  Session.runs
    (run options
       [Mount; Settle (Rejected (ErrorObject "native down")) 1; Refresh]
       Session.initial)
  = 2%nat.
Proof.
  intros options.
  exact (proj2 (proj2 (proj2 (proj2
           (X19_settled_run_frees_the_instance options [Mount]
              (Rejected (ErrorObject "native down")) 1 eq_refl))))).
Defined.

(** X20. Once a measurement has been recorded, no later event (a failed
    refresh, a resume, an unmount) leaves the instance without one:
    [measurement] and [lastMeasuredAt] stay set. *)
Theorem X20_recorded_measurement_stays :
  forall (options : option UseNetworkQualityOptions.t)
         (events later : list event),
    Session.measurement (run options events Session.initial) <> None ->
    Session.measurement (run options (events ++ later) Session.initial)
    <> None /\
    Session.lastMeasuredAt (run options (events ++ later) Session.initial)
    <> None.
Proof.
  intros options events later recorded.
  assert (stays : Session.measurement
                    (run options (events ++ later) Session.initial) <> None).
  { rewrite run_app.
    apply (run_invariant options (fun s => Session.measurement s <> None));
      [|exact recorded].
    intros s e set.
    destruct (Session.measurement s) as [m|] eqn:is_m; [|contradiction].
    destruct (measurement_never_erased options s e m is_m) as [m' ->].
    discriminate. }
  split; [exact stays|].
  assert (reach : reachable options
                    (run options (events ++ later) Session.initial))
    by (exists (events ++ later); reflexivity).
  destruct (reachable_coherent options _ reach)
    as (_ & _ & _ & _ & stamped & _).
  intros unstamped. apply stays, stamped, unstamped.
Qed.

Lemma X20_recorded_measurement_stays_witness :
  let raw :=
    NativeMeasurement.mk 0 "wifi" "unknown" None None (Some 30) None
      (Some 25) (Some 0.5) true None in
  Session.measurement
    (run None
       ([Mount; Settle (Resolved raw) 1]
        ++ [Refresh; Settle (Rejected (OtherValue "timeout")) 2; Unmount])
       Session.initial)
  <> None.
Proof.
  intros raw.
  apply (X20_recorded_measurement_stays None
           [Mount; Settle (Resolved raw) 1]
           [Refresh; Settle (Rejected (OtherValue "timeout")) 2; Unmount]).
  discriminate.
Defined.

(** X21. The badge colours of the example screen: the four tiers of a
    connected link get four different colours, and [offline] gets the
    colour of the [default] branch, the one shown for [null] and for any
    string that is not a tier. *)
Theorem X21_getColor_separates_connected_tiers :
  (forall q q' : NetworkQuality,
      q <> offline ->
      getColor (Some (tierName q)) = getColor (Some (tierName q')) ->
      q = q') /\
  getColor (Some (tierName offline)) = getColor None /\
  (forall other : string,
      (forall q, q <> offline -> other <> tierName q) ->
      getColor (Some other) = getColor None).
Proof.
  split; [|split].
  - intros q q' connected same.
    destruct q, q'; cbn in same; try reflexivity; try discriminate same;
      exfalso; apply connected; reflexivity.
  - reflexivity.
  - intros other not_a_tier. unfold getColor.
    assert (differs : forall q, q <> offline ->
              String.eqb other (tierName q) = false)
      by (intros q connected; apply String.eqb_neq, not_a_tier, connected).
    pose proof (differs excellent ltac:(discriminate)) as not_excellent.
    pose proof (differs good ltac:(discriminate)) as not_good.
    pose proof (differs fair ltac:(discriminate)) as not_fair.
    pose proof (differs poor ltac:(discriminate)) as not_poor.
    cbn [tierName] in not_excellent, not_good, not_fair, not_poor.
    rewrite not_excellent, not_good, not_fair, not_poor.
    reflexivity.
Qed.

Lemma X21_getColor_separates_connected_tiers_witness :
  getColor (Some "unknown"%string) = getColor None.
Proof.
  apply (proj2 (proj2 X21_getColor_separates_connected_tiers)).
  intros q connected. destruct q; discriminate.
Defined.
